(** * Expanded retrieval (onyx.agent_search.expanded_retrieval.nodes)

    A shallow embedding of the node functions of the expanded-retrieval
    sub-graph: query expansion, document retrieval, verification kick-off,
    document verification, reranking, the chunk statistics and the result
    formatter, followed by the properties the specification states about
    them.

    Conventions.
    - A Python [str] is a [string]; its characters are the code points
      below 256, so [isspace] and [lower] are the restrictions of Python's
      to that range.
    - A Python [float] is a primitive IEEE-754 double; [np.mean] is a
      parameter.
    - A node returns its update fragment in the monad [M], which records
      the calls made to the collaborators (model, search tool, reranker,
      loggers, event sink) in order and stops at the first exception.
    - Names imported by the module but defined elsewhere (configuration
      constants, prompts, helper functions) are the variables of the
      section [Nodes]. *)

From Stdlib Require Import ZArith String Ascii List Lia.
From Stdlib Require Import Floats.
From stdpp Require Import base option list strings pretty gmap.

#[local] Set Warnings "-clear-no-such-hyp".
Local Open Scope Z_scope.

(** ** Python strings *)

Module PyStr.

(** [str.isspace] on one character (code points below 256). *)
Definition isspace (c : ascii) : bool :=
  let n := N_of_ascii c in
  ((9 <=? n) && (n <=? 13) || (28 <=? n) && (n <=? 32) || (n =? 133) || (n =? 160))%N.

Fixpoint lstrip (s : string) : string :=
  match s with
  | EmptyString => EmptyString
  | String c s' => if isspace c then lstrip s' else s
  end.

Definition rstrip (s : string) : string := String.rev (lstrip (String.rev s)).

(** [s.strip()] *)
Definition strip (s : string) : string := rstrip (lstrip s).

(** Truth value of a string: [bool(s)]. *)
Definition truthy (s : string) : bool :=
  match s with EmptyString => false | String _ _ => true end.

(** Every character is white space (the empty string included). *)
Fixpoint blank (s : string) : bool :=
  match s with
  | EmptyString => true
  | String c s' => isspace c && blank s'
  end.

(** [str.lower] on one character (code points below 256). *)
Definition lower_char (c : ascii) : ascii :=
  let n := N_of_ascii c in
  if ((65 <=? n) && (n <=? 90) || (192 <=? n) && (n <=? 222) && negb (n =? 215))%N
  then ascii_of_N (n + 32) else c.

Fixpoint lower (s : string) : string :=
  match s with
  | EmptyString => EmptyString
  | String c s' => String (lower_char c) (lower s')
  end.

Fixpoint startswith (p s : string) : bool :=
  match p, s with
  | EmptyString, _ => true
  | String _ _, EmptyString => false
  | String a p', String b s' => Ascii.eqb a b && startswith p' s'
  end.

(** [needle in hay] *)
Fixpoint contains (needle hay : string) : bool :=
  startswith needle hay ||
  match hay with
  | EmptyString => false
  | String _ hay' => contains needle hay'
  end.

(** [s.split(sep)] for a separator of one character. *)
Fixpoint split (sep : ascii) (s : string) : list string :=
  match s with
  | EmptyString => [EmptyString]
  | String c s' =>
      if Ascii.eqb c sep then EmptyString :: split sep s'
      else match split sep s' with
           | [] => [String c EmptyString]
           | w :: ws => String c w :: ws
           end
  end.

(** [sep.join(l)] *)
Fixpoint join (sep : string) (l : list string) : string :=
  match l with
  | [] => EmptyString
  | [w] => w
  | w :: ws => w +:+ sep +:+ join sep ws
  end.

(** [c] occurs in [s]. *)
Fixpoint occurs (c : ascii) (s : string) : Prop :=
  match s with
  | EmptyString => False
  | String a s' => a = c \/ occurs c s'
  end.

(** [str(n)] for an [int]. *)
Definition of_int (n : Z) : string := pretty n.

End PyStr.

(** [float(n)] for an [int]: the nearest double. *)
Definition float_of_int (n : Z) : float :=
  SF2Prim (binary_normalize prec emax n 0 false).

(** ** Exceptions and outcomes *)

Record exn := Exception { exn_class : string; exn_msg : string }.

Definition ValueError (msg : string) : exn := Exception "ValueError" msg.
Definition IndexError (msg : string) : exn := Exception "IndexError" msg.
Definition AttributeError (msg : string) : exn := Exception "AttributeError" msg.

#[global] Instance exn_eq_dec : EqDecision exn.
Proof. solve_decision. Defined.

Inductive outcome (A : Type) : Type :=
| Returns (a : A)
| Raises (e : exn).
Arguments Returns {A} a.
Arguments Raises {A} e.

(** ** Data model *)

Record InferenceChunk := {
  document_id : string;
  chunk_id : Z;
  score : option float
}.

Record InferenceSection := {
  center_chunk : InferenceChunk;
  combined_content : string
}.

(** An element of a list handed back by a collaborator: an object whose
    type is exactly [InferenceSection], or an object of another type. *)
Inductive pyobj :=
| PySection (doc : InferenceSection)
| PyOther (type_name : string).

Record RetrievalFitScoreMetrics := {
  scores : list (string * float);
  chunk_ids : list string
}.

Record RetrievalFitStats := {
  fit_score_lift : float;
  rerank_effect : float;
  fit_scores : gmap string RetrievalFitScoreMetrics
}.

Record QueryResult := {
  query : string;
  search_results : list InferenceSection;
  stats : option RetrievalFitStats
}.

Module AgentChunkStats.
Record t := {
  verified_count : nat;
  verified_avg_scores : float;
  rejected_count : nat;
  rejected_avg_scores : option float;
  verified_doc_chunk_ids : list string;
  dismissed_doc_chunk_ids : list string
}.
End AgentChunkStats.

Record ExpandedRetrievalResult := {
  expanded_queries_results : list QueryResult;
  all_documents : list InferenceSection;
  sub_question_retrieval_stats : AgentChunkStats.t
}.

(** [response.content] of a model message. *)
Inductive MessageContent :=
| ContentStr (s : string)
| ContentList (parts : list string).

Record LLM := {
  stream : string -> outcome (list string);
  invoke : string -> outcome MessageContent
}.

Record SearchPipeline := {
  _retrieved_sections : option (list InferenceSection)
}.

Inductive ToolResponseBody :=
| SearchResponseSummary (top_sections : list InferenceSection)
| OtherResponse (data : string).

Record ToolResponse := {
  id : string;
  response : ToolResponseBody
}.

(** The search tool: [run] yields the tool responses of a query and leaves
    the tool's [search_pipeline] attribute as given in the second
    component. *)
Record SearchTool := {
  user : option string;
  run : string -> outcome (list ToolResponse * option SearchPipeline)
}.

Record RerankSettings := {
  rerank_model_name : option string;
  num_rerank : Z
}.

Record SearchQuery := {
  sq_query : string;
  rerank_settings : option RerankSettings
}.

Record ProSearchConfig := {
  search_request_query : string;
  chat_session_id : option string
}.

(** The core fields every state of the sub-graph carries. *)
Record SubgraphCoreState := {
  subgraph_config : ProSearchConfig;
  subgraph_fast_llm : LLM;
  subgraph_search_tool : SearchTool
}.

Module ExpandedRetrievalInput.
Record t := {
  core : SubgraphCoreState;
  question : option string;
  sub_question_id : option string
}.
End ExpandedRetrievalInput.

Module RetrievalInput.
Record t := {
  core : SubgraphCoreState;
  query_to_retrieve : string;
  sub_question_id : option string
}.
End RetrievalInput.

Module DocVerificationInput.
Record t := {
  core : SubgraphCoreState;
  doc_to_verify : InferenceSection;
  question : string;
  base_search : bool;
  sub_question_id : option string
}.
End DocVerificationInput.

Module ExpandedRetrievalState.
Record t := {
  core : SubgraphCoreState;
  question : option string;
  sub_question_id : option string;
  expanded_queries : list string;
  expanded_retrieval_results : list QueryResult;
  retrieved_documents : list InferenceSection;
  verified_documents : list InferenceSection;
  reranked_documents : list InferenceSection
}.
End ExpandedRetrievalState.

Record QueryExpansionUpdate := {
  qe_expanded_queries : list string
}.

Record DocRetrievalUpdate := {
  dr_expanded_retrieval_results : list QueryResult;
  dr_retrieved_documents : list InferenceSection
}.

Record DocVerificationUpdate := {
  dv_verified_documents : list InferenceSection
}.

Record DocRerankingUpdate := {
  rr_reranked_documents : list InferenceSection;
  rr_sub_question_retrieval_stats : option RetrievalFitStats
}.

Record ExpandedRetrievalUpdate := {
  expanded_retrieval_result : ExpandedRetrievalResult
}.

Record SubQueryPiece := {
  sub_query : string;
  sqp_level : Z;
  sqp_level_question_nr : Z;
  query_id : Z
}.

Record ExtendedToolResponse := {
  etr_id : string;
  etr_response : ToolResponseBody;
  etr_level : Z;
  etr_level_question_nr : Z
}.

(** ** Events and the node monad *)

(** What a node does besides returning. *)
Inductive event :=
| LoggerWarning (msg : string)
| SubqueriesEvent (piece : SubQueryPiece)
| ToolResponseEvent (r : ExtendedToolResponse)
| SessionContext
| LlmStream (prompt : string)
| LlmInvoke (prompt : string)
| SearchToolRun (q : string) (force_no_rerank : bool)
| RetrievalPreprocessing (q : string)
| RerankSections (q : SearchQuery) (docs : list InferenceSection).

Definition M (A : Type) : Type := (list event * outcome A)%type.

#[global] Instance M_ret : MRet M := fun A a => ([], Returns a).

#[global] Instance M_bind : MBind M := fun A B f m =>
  match m with
  | (t, Returns a) => let '(t', r) := f a in (t ++ t', r)
  | (t, Raises e) => (t, Raises e)
  end.

Definition emit (e : event) : M unit := ([e], Returns tt).
Definition raise {A : Type} (e : exn) : M A := ([], Raises e).

(** A call to a collaborator: recorded, then its outcome. *)
Definition call {A : Type} (e : event) (o : outcome A) : M A := ([e], o).

Definition result_of {A : Type} (m : M A) : outcome A := m.2.
Definition trace_of {A : Type} (m : M A) : list event := m.1.

(** The call returned. *)
Definition returns {A : Type} (o : outcome A) : bool :=
  match o with Returns _ => true | Raises _ => false end.

Fixpoint foldM {A B : Type} (f : A -> B -> M A) (a : A) (l : list B) : M A :=
  match l with
  | [] => mret a
  | x :: l' => a' ← f a x; foldM f a' l'
  end.

Fixpoint mapM {A B : Type} (f : A -> M B) (l : list A) : M (list B) :=
  match l with
  | [] => mret []
  | x :: l' => y ← f x; ys ← mapM f l'; mret (y :: ys)
  end.

(** [l[:n]] *)
Definition slice_to {A : Type} (n : Z) (l : list A) : list A :=
  if 0 <=? n then take (Z.to_nat n) l
  else take (length l - Z.to_nat (- n))%nat l.

(** The events of a trace that reach the retrieval backend. *)
Definition is_backend_call (e : event) : bool :=
  match e with SearchToolRun _ _ => true | _ => false end.

(** The events of a trace that reach the language model. *)
Definition is_model_call (e : event) : bool :=
  match e with LlmStream _ | LlmInvoke _ => true | _ => false end.

Definition lift {A : Type} (o : outcome A) : M A := ([], o).

(** ** Helpers of the nodes *)

Definition newline : ascii := "010"%char.

(** [type(doc) == InferenceSection] kept, the rest dropped. *)
Definition sections_only (l : list pyobj) : list InferenceSection :=
  omap (fun o => match o with PySection d => Some d | PyOther _ => None end) l.

(** [f"{document_id}_{chunk_id}"] *)
Definition make_chunk_key (did : string) (cid : Z) : string :=
  did +:+ "_" +:+ PyStr.of_int cid.

Definition doc_chunk_id (doc : InferenceSection) : string :=
  make_chunk_key (document_id (center_chunk doc)) (chunk_id (center_chunk doc)).

(** The identity of a document: its pair [(document_id, chunk_id)]. *)
Definition identity_key (doc : InferenceSection) : string * Z :=
  (document_id (center_chunk doc), chunk_id (center_chunk doc)).

(** [chunk_scores]: an insertion-ordered dictionary from a chunk key to the
    list stored under ["score"]. *)
Definition chunk_scores_t : Type := list (string * list (option float)).

(** [chunk_scores[k]["score"].append(v)] on the default dictionary. *)
Fixpoint chunk_scores_append (k : string) (v : option float) (d : chunk_scores_t)
  : chunk_scores_t :=
  match d with
  | [] => [(k, [v])]
  | (k', vs) :: d' =>
      if decide (k = k') then (k', vs ++ [v]) :: d'
      else (k', vs) :: chunk_scores_append k v d'
  end.

(** The two default dictionaries [raw_chunk_stats_counts] and
    [raw_chunk_stats_scores] and the list [dismissed_doc_chunk_ids]. A
    count that was never written reads 0; a score that was never written
    is [None] for [.get] and reads 0.0 through the default. *)
Record raw_chunk_stats := {
  raw_verified_count : nat;
  raw_rejected_count : nat;
  raw_verified_scores : option float;
  raw_rejected_scores : option float;
  raw_dismissed : list string
}.

Definition raw_chunk_stats_init : raw_chunk_stats :=
  {| raw_verified_count := 0; raw_rejected_count := 0;
     raw_verified_scores := None; raw_rejected_scores := None;
     raw_dismissed := [] |}.

(** [d[k] += x] on a [defaultdict(float)] entry. *)
Definition add_default (entry : option float) (x : float) : option float :=
  Some (default 0%float entry + x)%float.

(** [rerank_settings and rerank_settings.rerank_model_name and
    rerank_settings.num_rerank > 0] *)
Definition rerank_configured (q : SearchQuery) : bool :=
  match rerank_settings q with
  | None => false
  | Some rs =>
      match rerank_model_name rs with
      | None => false
      | Some name => PyStr.truthy name && (0 <? num_rerank rs)
      end
  end.

(** [dispatch_subquery(level, question_nr)] *)
Definition dispatch_subquery (level question_nr : Z) (token : string) (num : Z)
  : M unit :=
  emit (SubqueriesEvent
          {| sub_query := token; sqp_level := level;
             sqp_level_question_nr := question_nr; query_id := num |}).

(** Modelled from the spec: [dispatch_separated] of
    onyx.agent_search.shared_graph_utils.utils is missing from the sources.
    It consumes the streamed tokens, emits one event per token tagged with
    the index of the rewritten query the token belongs to (the line breaks
    seen so far), and hands the tokens back for accumulation. *)
Fixpoint dispatch_separated_from (num : Z) (tokens : list string)
    (dispatch_event : string -> Z -> M unit) : M (list string) :=
  match tokens with
  | [] => mret []
  | token :: rest =>
      _ ← dispatch_event token num;
      rest' ← dispatch_separated_from
                (if PyStr.contains (String newline EmptyString) token
                 then num + 1 else num) rest dispatch_event;
      mret (token :: rest')
  end.

Definition dispatch_separated (tokens : list string)
    (dispatch_event : string -> Z -> M unit) : M (list string) :=
  dispatch_separated_from 0 tokens dispatch_event.

(** [merge_message_runs(l, chunk_separator="")[0].content] for the messages
    of one model stream: the contents joined without separator; indexing
    the merge of an empty list raises. *)
Definition merged_content (l : list string) : M string :=
  match l with
  | [] => raise (IndexError "list index out of range")
  | _ :: _ => mret (PyStr.join EmptyString l)
  end.

(** Modelled from the spec: [in_subgraph_extract_core_fields] of
    onyx.agent_search.core_state is missing from the sources; it copies the
    core fields of a state. *)
Definition in_subgraph_extract_core_fields (state : ExpandedRetrievalState.t)
  : SubgraphCoreState :=
  ExpandedRetrievalState.core state.

(** ** Sample collaborators and inputs *)

Module Sample.

Definition section_of (did : string) (cid : Z) (s : option float) (content : string)
  : InferenceSection :=
  {| center_chunk := {| document_id := did; chunk_id := cid; score := s |};
     combined_content := content |}.

Definition refund_terms : InferenceSection :=
  section_of "policy" 0 (Some 0.5%float) "Refunds are made within 30 days.".
Definition refund_form : InferenceSection :=
  section_of "policy" 1 (Some 0.25%float) "The refund form; 30 days apply.".
Definition shipping : InferenceSection :=
  section_of "shipping" 0 (Some 0.75%float) "Shipping rates by region.".
Definition unscored : InferenceSection :=
  section_of "faq" 3 None "Frequently asked questions.".
Definition returns_window : InferenceSection :=
  section_of "returns" 0 (Some 1.5%float) "Items can be returned within 30 days.".
Definition store_credit : InferenceSection :=
  section_of "returns" 4 (Some 0.125%float) "Store credit is issued on request.".
Definition invented : InferenceSection :=
  section_of "invented" 0 (Some 1%float) "Not a retrieved document.".

(** [np.mean] of a short list: the running sum over the length. *)
Definition mean (l : list float) : float :=
  (foldl PrimFloat.add 0%float l / float_of_int (Z.of_nat (length l)))%float.

Definition rewrite_prompt (question : string) : string :=
  "Rewrite as search queries: " +:+ question.

Definition verifier_prompt (question document_content : string) : string :=
  "Question: " +:+ question +:+ " Document: " +:+ document_content.

Definition summary_id : string := "search_response_summary".

Fixpoint parse_digits (acc : Z) (s : string) : option Z :=
  match s with
  | EmptyString => Some acc
  | String c s' =>
      match Ascii.is_nat c with
      | Some d => parse_digits (10 * acc + Z.of_nat d) s'
      | None => None
      end
  end.

Definition parse_int (s : string) : option Z :=
  match s with
  | EmptyString => None
  | String _ _ => parse_digits 0 s
  end.

(** Modelled from the spec: [parse_question_id] of
    onyx.agent_search.shared_graph_utils.utils is missing from the sources.
    The spec has the pair (level, question_number) encoded into a single
    sub-question identifier string that is parsed where it is consumed;
    here the two numbers are in decimal, joined by an underscore, and a
    string of another shape raises [ValueError]. *)
Definition parse_question_id (question_id : string) : outcome (Z * Z) :=
  match PyStr.split "_" question_id with
  | [level; question_nr] =>
      match parse_int level, parse_int question_nr with
      | Some l, Some n => Returns (l, n)
      | _, _ => Raises (ValueError "invalid literal for int() with base 10")
      end
  | [_] => Raises (ValueError "not enough values to unpack (expected 2, got 1)")
  | _ => Raises (ValueError "too many values to unpack (expected 2)")
  end.

Definition get_fit_scores (pre post : list pyobj) : option RetrievalFitStats :=
  Some {| fit_score_lift := float_of_int (Z.of_nat (length pre));
          rerank_effect := float_of_int (Z.of_nat (length post));
          fit_scores := ∅ |}.

(** A model that streams two rewritten queries and finds a document
    relevant when it mentions the 30 days. *)
Definition llm : LLM :=
  {| stream := fun _ =>
       Returns ["refund policy"; String newline EmptyString; "return policy"];
     invoke := fun prompt =>
       Returns (ContentStr (if PyStr.contains "30 days" prompt
                            then "Yes, it is relevant." else "No.")) |}.

Definition search_tool : SearchTool :=
  {| user := None;
     run := fun _ =>
       Returns ([ {| id := "section_relevance"; response := OtherResponse "[]" |};
                  {| id := summary_id;
                     response := SearchResponseSummary [refund_terms; shipping; unscored] |} ],
                Some {| _retrieved_sections :=
                          Some [shipping; refund_terms; unscored; refund_form] |}) |}.

Definition core : SubgraphCoreState :=
  {| subgraph_config :=
       {| search_request_query := "What is the refund policy?";
          chat_session_id := Some "session-1" |};
     subgraph_fast_llm := llm;
     subgraph_search_tool := search_tool |}.

Definition expansion_input : ExpandedRetrievalInput.t :=
  {| ExpandedRetrievalInput.core := core;
     ExpandedRetrievalInput.question := None;
     ExpandedRetrievalInput.sub_question_id := Some "0_0" |}.

Definition blank_question_input : ExpandedRetrievalInput.t :=
  {| ExpandedRetrievalInput.core := core;
     ExpandedRetrievalInput.question := Some "  ";
     ExpandedRetrievalInput.sub_question_id := None |}.

Definition malformed_id_input : ExpandedRetrievalInput.t :=
  {| ExpandedRetrievalInput.core := core;
     ExpandedRetrievalInput.question := None;
     ExpandedRetrievalInput.sub_question_id := Some "first" |}.

Definition retrieval_input : RetrievalInput.t :=
  {| RetrievalInput.core := core;
     RetrievalInput.query_to_retrieve := "refund policy";
     RetrievalInput.sub_question_id := Some "0_0" |}.

Definition blank_retrieval_input : RetrievalInput.t :=
  {| RetrievalInput.core := core;
     RetrievalInput.query_to_retrieve := "  ";
     RetrievalInput.sub_question_id := None |}.

Definition verification_input : DocVerificationInput.t :=
  {| DocVerificationInput.core := core;
     DocVerificationInput.doc_to_verify := refund_terms;
     DocVerificationInput.question := "What is the refund policy?";
     DocVerificationInput.base_search := false;
     DocVerificationInput.sub_question_id := None |}.

Definition query_results : list QueryResult :=
  [ {| query := "refund policy";
       search_results := [refund_terms; shipping; unscored];
       stats := None |};
    {| query := "return policy";
       search_results := [refund_form; unscored];
       stats := None |} ].

(** The QueryResults of scenario A: two queries, three documents each, one
    key retrieved by both. *)
Definition scenario_A_results : list QueryResult :=
  [ {| query := "refund policy";
       search_results := [refund_terms; refund_form; shipping];
       stats := None |};
    {| query := "return policy timeframe";
       search_results := [returns_window; refund_terms; store_credit];
       stats := None |} ].

Definition unscored_result : QueryResult :=
  {| query := "faq"; search_results := [unscored]; stats := None |}.

Definition verified_state : ExpandedRetrievalState.t :=
  {| ExpandedRetrievalState.core := core;
     ExpandedRetrievalState.question := None;
     ExpandedRetrievalState.sub_question_id := None;
     ExpandedRetrievalState.expanded_queries := ["refund policy"; "return policy"];
     ExpandedRetrievalState.expanded_retrieval_results := query_results;
     ExpandedRetrievalState.retrieved_documents :=
       [refund_terms; shipping; unscored; refund_form; unscored];
     ExpandedRetrievalState.verified_documents := [refund_terms; refund_form];
     ExpandedRetrievalState.reranked_documents := [] |}.

Definition plain_query (q : string) : SearchQuery :=
  {| sq_query := q; rerank_settings := None |}.

Definition rerank_query (q : string) : SearchQuery :=
  {| sq_query := q;
     rerank_settings :=
       Some {| rerank_model_name := Some "cross-encoder"; num_rerank := 20 |} |}.

Definition preprocessing_plain (q : string) (_ : option string) (_ : LLM)
  : outcome SearchQuery := Returns (plain_query q).

Definition preprocessing_rerank (q : string) (_ : option string) (_ : LLM)
  : outcome SearchQuery := Returns (rerank_query q).

(** A reranker that hands the documents back in reverse order. *)
Definition reversing_reranker (_ : SearchQuery) (docs : list InferenceSection)
  : outcome (list pyobj) := Returns (PySection <$> reverse docs).

(** A reranker that adds an entry of another type and a section it was not
    given. *)
Definition adding_reranker (_ : SearchQuery) (docs : list InferenceSection)
  : outcome (list pyobj) :=
  Returns (PyOther "dict" :: PySection invented :: (PySection <$> docs)).

(** A reranker that hands the documents back in reverse order, each with
    the score the reranking model gave it written over its retrieval
    score. *)
Definition rescoring_reranker (_ : SearchQuery) (docs : list InferenceSection)
  : outcome (list pyobj) :=
  Returns (PySection <$>
             ((fun doc =>
                 section_of (document_id (center_chunk doc)) (chunk_id (center_chunk doc))
                            (Some 2%float) (combined_content doc))
                <$> reverse docs)).

(** A parser that rejects every identifier. *)
Definition rejecting_parser (_ : string) : outcome (Z * Z) :=
  Raises (ValueError "not a question id").

Definition empty_id_retrieval_input : RetrievalInput.t :=
  {| RetrievalInput.core := core;
     RetrievalInput.query_to_retrieve := "refund policy";
     RetrievalInput.sub_question_id := Some EmptyString |}.

Definition first_summary : ToolResponse :=
  {| id := summary_id; response := SearchResponseSummary [shipping] |}.
Definition last_summary : ToolResponse :=
  {| id := summary_id;
     response := SearchResponseSummary [refund_terms; refund_form; unscored] |}.
Definition relevance_response : ToolResponse :=
  {| id := "section_relevance"; response := OtherResponse "[]" |}.

(** A search tool that yields two summary responses and has no pipeline. *)
Definition two_summaries_tool : SearchTool :=
  {| user := None;
     run := fun _ =>
       Returns ([first_summary; relevance_response; last_summary; relevance_response],
                None) |}.

(** A search tool that yields no summary response. *)
Definition no_summary_tool : SearchTool :=
  {| user := None; run := fun _ => Returns ([relevance_response], None) |}.

(** A search tool whose backend fails on the second rewritten query. *)
Definition failing_tool : SearchTool :=
  {| user := None;
     run := fun q =>
       if decide (q = "return policy")
       then Raises (Exception "ConnectionError" "the index does not answer")
       else run search_tool q |}.

(** A model whose invocation fails on the shipping rates. *)
Definition failing_llm : LLM :=
  {| stream := stream llm;
     invoke := fun prompt =>
       if PyStr.contains "Shipping" prompt
       then Raises (Exception "TimeoutError" "the model does not answer")
       else invoke llm prompt |}.

Definition failing_input : ExpandedRetrievalInput.t :=
  {| ExpandedRetrievalInput.core :=
       {| subgraph_config := subgraph_config core;
          subgraph_fast_llm := failing_llm;
          subgraph_search_tool := failing_tool |};
     ExpandedRetrievalInput.question := None;
     ExpandedRetrievalInput.sub_question_id := Some "0_0" |}.

(** A preprocessing step that fails. *)
Definition failing_preprocessing (_ : string) (_ : option string) (_ : LLM)
  : outcome SearchQuery :=
  Raises (Exception "RuntimeError" "no search settings").

Definition no_session_input : ExpandedRetrievalInput.t :=
  {| ExpandedRetrievalInput.core :=
       {| subgraph_config :=
            {| search_request_query := "What is the refund policy?";
               chat_session_id := None |};
          subgraph_fast_llm := llm;
          subgraph_search_tool := search_tool |};
     ExpandedRetrievalInput.question := None;
     ExpandedRetrievalInput.sub_question_id := Some "0_0" |}.

Definition retrieval_input_with (tool : SearchTool) : RetrievalInput.t :=
  {| RetrievalInput.core :=
       {| subgraph_config := subgraph_config core;
          subgraph_fast_llm := llm;
          subgraph_search_tool := tool |};
     RetrievalInput.query_to_retrieve := "refund policy";
     RetrievalInput.sub_question_id := Some "1_2" |}.

End Sample.

(** ** The verification dispatcher of the nodes package *)

Definition KeyError (key : string) : exn := Exception "KeyError" key.

Section NodesPackage.

(** onyx.agent_search.core_state: the core fields and the function that
    extracts them from a state. *)
Variable CoreFields : Type.
Variable extract_core_fields : ExpandedRetrievalState.t -> CoreFields.

(** The argument of a [Send] to [doc_verification]. *)
Record PackageDocVerificationInput := {
  pkg_doc_to_verify : InferenceSection;
  pkg_question : string;
  pkg_core_fields : CoreFields
}.

(** The comprehension of [verification_kickoff]: [state["question"]] is
    read for each document in turn, so a state without the key raises at
    the first document. *)
Fixpoint package_sends (state : ExpandedRetrievalState.t)
    (documents : list InferenceSection) : outcome (list PackageDocVerificationInput) :=
  match documents with
  | [] => Returns []
  | doc :: documents' =>
      match ExpandedRetrievalState.question state with
      | None => Raises (KeyError "'question'")
      | Some question =>
          match package_sends state documents' with
          | Returns sends =>
              Returns ({| pkg_doc_to_verify := doc;
                          pkg_question := question;
                          pkg_core_fields := extract_core_fields state |} :: sends)
          | Raises e => Raises e
          end
      end
  end.

(** nodes/verification_kickoff.py: the [goto] list of the command. *)
Definition package_verification_kickoff (state : ExpandedRetrievalState.t)
  : outcome (list PackageDocVerificationInput) :=
  let documents := ExpandedRetrievalState.retrieved_documents state in
  package_sends state documents.

End NodesPackage.

Arguments pkg_doc_to_verify {CoreFields} _.
Arguments pkg_question {CoreFields} _.
Arguments pkg_core_fields {CoreFields} _.

(** ** The nodes *)

Section Nodes.

#[local] Set Default Proof Using "Type".

(** onyx.configs.dev_configs *)
Variable AGENT_MAX_QUERY_RETRIEVAL_RESULTS : Z.
Variable AGENT_RERANKING_MAX_QUERY_RETRIEVAL_RESULTS : Z.
Variable AGENT_RERANKING_STATS : bool.
Variable AGENT_RETRIEVAL_STATS : bool.
(** onyx.tools.tool_implementations.search.search_tool *)
Variable SEARCH_RESPONSE_SUMMARY_ID : string.
(** onyx.agent_search.shared_graph_utils.prompts, as functions of the
    fields [format] fills in. *)
Variable REWRITE_PROMPT_MULTI_ORIGINAL : string -> string.
Variable VERIFIER_PROMPT : string -> string -> string.
(** onyx.agent_search.shared_graph_utils *)
Variable parse_question_id : string -> outcome (Z * Z).
Variable get_fit_scores : list pyobj -> list pyobj -> option RetrievalFitStats.
(** onyx.context.search *)
Variable retrieval_preprocessing : string -> option string -> LLM -> outcome SearchQuery.
Variable rerank_sections : SearchQuery -> list InferenceSection -> outcome (list pyobj).
(** numpy *)
Variable np_mean : list float -> float.

Definition expand_queries (state : ExpandedRetrievalInput.t) : M QueryExpansionUpdate :=
  let core := ExpandedRetrievalInput.core state in
  let question :=
    default (search_request_query (subgraph_config core))
            (ExpandedRetrievalInput.question state) in
  let llm := subgraph_fast_llm core in
  let chat_session_id := chat_session_id (subgraph_config core) in
  let sub_question_id := ExpandedRetrievalInput.sub_question_id state in
  '(level, question_nr) ←
    match sub_question_id with
    | None => mret (0, 0)
    | Some sqid => lift (parse_question_id sqid)
    end;
  _ ← match chat_session_id with
      | None => raise (ValueError "chat_session_id must be provided for agent search")
      | Some _ => mret tt
      end;
  let msg := REWRITE_PROMPT_MULTI_ORIGINAL question in
  tokens ← call (LlmStream msg) (stream llm msg);
  llm_response_list ← dispatch_separated tokens (dispatch_subquery level question_nr);
  llm_response ← merged_content llm_response_list;
  let rewritten_queries := PyStr.split newline llm_response in
  mret {| qe_expanded_queries := rewritten_queries |}.

(** The body of the loop over the tool responses of [doc_retrieval]. *)
Definition doc_retrieval_step (sub_question_id : option string)
    (retrieved_docs : list InferenceSection) (tool_response : ToolResponse)
  : M (list InferenceSection) :=
  retrieved_docs ←
    (if decide (id tool_response = SEARCH_RESPONSE_SUMMARY_ID) then
       match response tool_response with
       | SearchResponseSummary top_sections => mret top_sections
       | OtherResponse _ =>
           raise (AttributeError "object has no attribute 'top_sections'")
       end
     else mret retrieved_docs);
  '(level, question_nr) ←
    match sub_question_id with
    | Some sqid =>
        if PyStr.truthy sqid then lift (parse_question_id sqid) else mret (0, 0)
    | None => mret (0, 0)
    end;
  _ ← emit (ToolResponseEvent
              {| etr_id := id tool_response;
                 etr_response := response tool_response;
                 etr_level := level; etr_level_question_nr := question_nr |});
  mret retrieved_docs.

(** [search_tool.search_pipeline._retrieved_sections or retrieved_docs]
    when the tool has a pipeline, [retrieved_docs] otherwise. *)
Definition pre_rerank_docs_of (pipeline : option SearchPipeline)
    (retrieved_docs : list InferenceSection) : list InferenceSection :=
  match pipeline with
  | Some p =>
      match _retrieved_sections p with
      | Some (d :: ds) => d :: ds
      | Some [] | None => retrieved_docs
      end
  | None => retrieved_docs
  end.

Definition doc_retrieval (state : RetrievalInput.t) : M DocRetrievalUpdate :=
  let query_to_retrieve := RetrievalInput.query_to_retrieve state in
  let search_tool := subgraph_search_tool (RetrievalInput.core state) in
  if negb (PyStr.truthy (PyStr.strip query_to_retrieve)) then
    _ ← emit (LoggerWarning "Empty query, skipping retrieval");
    mret {| dr_expanded_retrieval_results := [];
            dr_retrieved_documents := [] |}
  else
    _ ← emit SessionContext;
    '(responses, search_pipeline) ←
      call (SearchToolRun query_to_retrieve true) (run search_tool query_to_retrieve);
    retrieved_docs ←
      foldM (doc_retrieval_step (RetrievalInput.sub_question_id state)) [] responses;
    let retrieved_docs := slice_to AGENT_MAX_QUERY_RETRIEVAL_RESULTS retrieved_docs in
    let pre_rerank_docs := pre_rerank_docs_of search_pipeline retrieved_docs in
    let fit_scores :=
      if AGENT_RETRIEVAL_STATS
      then get_fit_scores (PySection <$> pre_rerank_docs) (PySection <$> retrieved_docs)
      else None in
    let expanded_retrieval_result :=
      {| query := query_to_retrieve;
         search_results := retrieved_docs;
         stats := fit_scores |} in
    mret {| dr_expanded_retrieval_results := [expanded_retrieval_result];
            dr_retrieved_documents := retrieved_docs |}.

(** The [goto] list of the command: one [Send] to [doc_verification] per
    retrieved document (the update is empty). *)
Definition verification_kickoff (state : ExpandedRetrievalState.t)
  : list DocVerificationInput.t :=
  let documents := ExpandedRetrievalState.retrieved_documents state in
  let verification_question :=
    default (search_request_query (subgraph_config (ExpandedRetrievalState.core state)))
            (ExpandedRetrievalState.question state) in
  let sub_question_id := ExpandedRetrievalState.sub_question_id state in
  (fun doc =>
     {| DocVerificationInput.core := in_subgraph_extract_core_fields state;
        DocVerificationInput.doc_to_verify := doc;
        DocVerificationInput.question := verification_question;
        DocVerificationInput.base_search := false;
        DocVerificationInput.sub_question_id := sub_question_id |}) <$> documents.

(** [isinstance(response.content, str) and "yes" in response.content.lower()] *)
Definition says_yes (content : MessageContent) : bool :=
  match content with
  | ContentStr s => PyStr.contains "yes" (PyStr.lower s)
  | ContentList _ => false
  end.

Definition doc_verification (state : DocVerificationInput.t) : M DocVerificationUpdate :=
  let question := DocVerificationInput.question state in
  let doc_to_verify := DocVerificationInput.doc_to_verify state in
  let document_content := combined_content doc_to_verify in
  let msg := VERIFIER_PROMPT question document_content in
  let fast_llm := subgraph_fast_llm (DocVerificationInput.core state) in
  response ← call (LlmInvoke msg) (invoke fast_llm msg);
  let verified_documents := if says_yes response then [doc_to_verify] else [] in
  mret {| dv_verified_documents := verified_documents |}.

Definition doc_reranking (state : ExpandedRetrievalState.t) : M DocRerankingUpdate :=
  let core := ExpandedRetrievalState.core state in
  let verified_documents := ExpandedRetrievalState.verified_documents state in
  let question :=
    default (search_request_query (subgraph_config core))
            (ExpandedRetrievalState.question state) in
  _ ← emit SessionContext;
  _search_query ←
    call (RetrievalPreprocessing question)
         (retrieval_preprocessing question (user (subgraph_search_tool core))
                                  (subgraph_fast_llm core));
  reranked_documents ←
    (if rerank_configured _search_query then
       call (RerankSections _search_query verified_documents)
            (rerank_sections _search_query verified_documents)
     else
       _ ← emit (LoggerWarning "No reranking settings found, using unranked documents");
       mret (PySection <$> verified_documents));
  let fit_scores :=
    if AGENT_RERANKING_STATS
    then get_fit_scores (PySection <$> verified_documents) reranked_documents
    else Some {| fit_score_lift := float_of_int 0;
                 rerank_effect := float_of_int 0;
                 fit_scores := ∅ |} in
  mret {| rr_reranked_documents :=
            slice_to AGENT_RERANKING_MAX_QUERY_RETRIEVAL_RESULTS
                     (sections_only reranked_documents);
          rr_sub_question_retrieval_stats := fit_scores |}.

(** The first loop of [_calculate_sub_question_retrieval_stats]. *)
Definition collect_chunk_scores (expanded_retrieval_results : list QueryResult)
  : chunk_scores_t :=
  foldl (fun chunk_scores expanded_retrieval_result =>
           foldl (fun chunk_scores doc =>
                    match score (center_chunk doc) with
                    | Some s => chunk_scores_append (doc_chunk_id doc) (Some s) chunk_scores
                    | None => chunk_scores
                    end)
                 chunk_scores (search_results expanded_retrieval_result))
        [] expanded_retrieval_results.

(** [[score for score in chunk_data["score"] if score is not None]] *)
Definition valid_chunk_scores (chunk_data : list (option float)) : list float :=
  omap (fun s => s) chunk_data.

(** The body of the second loop, over [chunk_scores.items()]. *)
Definition chunk_stats_step (verified_doc_chunk_ids : list string)
    (raw : raw_chunk_stats) (item : string * list (option float)) : raw_chunk_stats :=
  let '(doc_chunk_id, chunk_data) := item in
  if decide (doc_chunk_id ∈ verified_doc_chunk_ids) then
    {| raw_verified_count := raw_verified_count raw + 1;
       raw_rejected_count := raw_rejected_count raw;
       raw_verified_scores :=
         add_default (raw_verified_scores raw) (np_mean (valid_chunk_scores chunk_data));
       raw_rejected_scores := raw_rejected_scores raw;
       raw_dismissed := raw_dismissed raw |}
  else
    {| raw_verified_count := raw_verified_count raw;
       raw_rejected_count := raw_rejected_count raw + 1;
       raw_verified_scores := raw_verified_scores raw;
       raw_rejected_scores :=
         add_default (raw_rejected_scores raw) (np_mean (valid_chunk_scores chunk_data));
       raw_dismissed := raw_dismissed raw ++ [doc_chunk_id] |}.

Definition _calculate_sub_question_retrieval_stats
    (verified_documents : list InferenceSection)
    (expanded_retrieval_results : list QueryResult) : AgentChunkStats.t :=
  let chunk_scores := collect_chunk_scores expanded_retrieval_results in
  let verified_doc_chunk_ids := doc_chunk_id <$> verified_documents in
  let raw := foldl (chunk_stats_step verified_doc_chunk_ids)
                   raw_chunk_stats_init chunk_scores in
  let verified_avg_scores :=
    if decide (raw_verified_count raw = 0%nat) then 0%float
    else (default 0%float (raw_verified_scores raw)
          / float_of_int (Z.of_nat (raw_verified_count raw)))%float in
  let rejected_avg_scores :=
    match raw_rejected_scores raw with
    | Some rejected_scores =>
        Some (rejected_scores / float_of_int (Z.of_nat (raw_rejected_count raw)))%float
    | None => None
    end in
  {| AgentChunkStats.verified_count := raw_verified_count raw;
     AgentChunkStats.verified_avg_scores := verified_avg_scores;
     AgentChunkStats.rejected_count := raw_rejected_count raw;
     AgentChunkStats.rejected_avg_scores := rejected_avg_scores;
     AgentChunkStats.verified_doc_chunk_ids := verified_doc_chunk_ids;
     AgentChunkStats.dismissed_doc_chunk_ids := raw_dismissed raw |}.

Definition format_results (state : ExpandedRetrievalState.t) : ExpandedRetrievalUpdate :=
  let sub_question_retrieval_stats :=
    _calculate_sub_question_retrieval_stats
      (ExpandedRetrievalState.verified_documents state)
      (ExpandedRetrievalState.expanded_retrieval_results state) in
  {| expanded_retrieval_result :=
       {| expanded_queries_results := ExpandedRetrievalState.expanded_retrieval_results state;
          all_documents := ExpandedRetrievalState.reranked_documents state;
          sub_question_retrieval_stats := sub_question_retrieval_stats |} |}.

Definition with_verified_documents (state : ExpandedRetrievalState.t)
    (docs : list InferenceSection) : ExpandedRetrievalState.t :=
  {| ExpandedRetrievalState.core := ExpandedRetrievalState.core state;
     ExpandedRetrievalState.question := ExpandedRetrievalState.question state;
     ExpandedRetrievalState.sub_question_id := ExpandedRetrievalState.sub_question_id state;
     ExpandedRetrievalState.expanded_queries := ExpandedRetrievalState.expanded_queries state;
     ExpandedRetrievalState.expanded_retrieval_results :=
       ExpandedRetrievalState.expanded_retrieval_results state;
     ExpandedRetrievalState.retrieved_documents :=
       ExpandedRetrievalState.retrieved_documents state;
     ExpandedRetrievalState.verified_documents := docs;
     ExpandedRetrievalState.reranked_documents :=
       ExpandedRetrievalState.reranked_documents state |}.

Definition with_reranked_documents (state : ExpandedRetrievalState.t)
    (docs : list InferenceSection) : ExpandedRetrievalState.t :=
  {| ExpandedRetrievalState.core := ExpandedRetrievalState.core state;
     ExpandedRetrievalState.question := ExpandedRetrievalState.question state;
     ExpandedRetrievalState.sub_question_id := ExpandedRetrievalState.sub_question_id state;
     ExpandedRetrievalState.expanded_queries := ExpandedRetrievalState.expanded_queries state;
     ExpandedRetrievalState.expanded_retrieval_results :=
       ExpandedRetrievalState.expanded_retrieval_results state;
     ExpandedRetrievalState.retrieved_documents :=
       ExpandedRetrievalState.retrieved_documents state;
     ExpandedRetrievalState.verified_documents :=
       ExpandedRetrievalState.verified_documents state;
     ExpandedRetrievalState.reranked_documents := docs |}.

(** Modelled from the spec: the error taxonomy of the spec has one fatal
    class, the ConfigurationError of a missing chat-session identity; it is
    the exception [expand_queries] raises for it. *)
Definition configuration_error : exn :=
  ValueError "chat_session_id must be provided for agent search".

(** Modelled from the spec: what aborts the unit of work at its top, the
    query expansion. *)
Definition is_configuration_error (e : exn) : bool :=
  bool_decide (e = configuration_error).

(** Modelled from the spec: nothing aborts inside a fan-out task or in the
    reranking stage. *)
Definition never_fatal (e : exn) : bool := false.

(** Modelled from the spec: the propagation policy of the graph engine,
    which is missing from the sources. A failure inside a task is caught,
    logged and converted to the neutral output of the task, so that the
    sibling tasks and the later stages run; only a fatal failure goes on. *)
Definition caught {A : Type} (fatal : exn -> bool) (neutral : A) (task : M A) : M A :=
  match task with
  | (t, Returns a) => (t, Returns a)
  | (t, Raises e) =>
      if fatal e then (t, Raises e)
      else (t ++ [LoggerWarning (exn_msg e)], Returns neutral)
  end.

(** Modelled from the spec: the neutral output of query expansion, which
    at minimum degenerates to the original question. *)
Definition neutral_expansion (question : string) : QueryExpansionUpdate :=
  {| qe_expanded_queries := [question] |}.

(** Modelled from the spec: a failed retrieval is treated as an empty
    QueryResult for its query. *)
Definition neutral_retrieval (q : string) : DocRetrievalUpdate :=
  {| dr_expanded_retrieval_results :=
       [{| query := q; search_results := []; stats := None |}];
     dr_retrieved_documents := [] |}.

(** Modelled from the spec: a failed verification is treated as "not
    relevant". *)
Definition neutral_verification : DocVerificationUpdate :=
  {| dv_verified_documents := [] |}.

(** Modelled from the spec: a failed reranking gives an empty document list
    and zero-valued statistics. *)
Definition neutral_reranking : DocRerankingUpdate :=
  {| rr_reranked_documents := [];
     rr_sub_question_retrieval_stats :=
       Some {| fit_score_lift := 0%float; rerank_effect := 0%float; fit_scores := ∅ |} |}.

(** Modelled from the spec: the graph that wires the nodes; its builder and
    the state declarations with their merge rules are missing from the
    sources. One retrieval task per expanded query and one verification
    task per retrieved document, their update fragments merged by list
    append; the fragment of the reranking stage replaces; the fragment of
    the formatter is the result. The tasks of a fan-out are run in list
    order. A task that fails contributes its neutral output, and the result
    bundle is returned on every run but the one the configuration error of
    query expansion aborts. *)
Definition expanded_retrieval_graph (input : ExpandedRetrievalInput.t)
  : M ExpandedRetrievalUpdate :=
  let core := ExpandedRetrievalInput.core input in
  let question :=
    default (search_request_query (subgraph_config core))
            (ExpandedRetrievalInput.question input) in
  expansion ←
    caught is_configuration_error (neutral_expansion question) (expand_queries input);
  retrievals ←
    mapM (fun q =>
            caught never_fatal (neutral_retrieval q)
              (doc_retrieval
                 {| RetrievalInput.core := core;
                    RetrievalInput.query_to_retrieve := q;
                    RetrievalInput.sub_question_id :=
                      ExpandedRetrievalInput.sub_question_id input |}))
         (qe_expanded_queries expansion);
  let state :=
    {| ExpandedRetrievalState.core := core;
       ExpandedRetrievalState.question := ExpandedRetrievalInput.question input;
       ExpandedRetrievalState.sub_question_id :=
         ExpandedRetrievalInput.sub_question_id input;
       ExpandedRetrievalState.expanded_queries := qe_expanded_queries expansion;
       ExpandedRetrievalState.expanded_retrieval_results :=
         mjoin (dr_expanded_retrieval_results <$> retrievals);
       ExpandedRetrievalState.retrieved_documents :=
         mjoin (dr_retrieved_documents <$> retrievals);
       ExpandedRetrievalState.verified_documents := [];
       ExpandedRetrievalState.reranked_documents := [] |} in
  verifications ←
    mapM (fun task => caught never_fatal neutral_verification (doc_verification task))
         (verification_kickoff state);
  let state :=
    with_verified_documents state (mjoin (dv_verified_documents <$> verifications)) in
  reranking ← caught never_fatal neutral_reranking (doc_reranking state);
  let state := with_reranked_documents state (rr_reranked_documents reranking) in
  mret (format_results state).

(** ** Definitions used to state the properties *)

(** Every document of every QueryResult, in order. *)
Definition retrieved_of (results : list QueryResult) : list InferenceSection :=
  mjoin (search_results <$> results).

Definition has_score (doc : InferenceSection) : bool :=
  match score (center_chunk doc) with Some _ => true | None => false end.

(** The sections captured by the loop of [doc_retrieval]: those of the
    last summary response, none when there is no summary response. *)
Definition capture_step (acc : list InferenceSection) (r : ToolResponse)
  : list InferenceSection :=
  if decide (id r = SEARCH_RESPONSE_SUMMARY_ID) then
    match response r with
    | SearchResponseSummary top_sections => top_sections
    | OtherResponse _ => acc
    end
  else acc.

Definition captured_sections (responses : list ToolResponse) : list InferenceSection :=
  foldl capture_step [] responses.

(** A response with the summary id carries top sections. *)
Definition response_well_formed (r : ToolResponse) : bool :=
  if decide (id r = SEARCH_RESPONSE_SUMMARY_ID) then
    match response r with
    | SearchResponseSummary _ => true
    | OtherResponse _ => false
    end
  else true.

(** The sub-question id is absent or is parsed ([expand_queries]). *)
Definition sub_question_id_parses (sub_question_id : option string) : bool :=
  match sub_question_id with
  | None => true
  | Some sqid => returns (parse_question_id sqid)
  end.

(** The sub-question id is falsy or is parsed ([doc_retrieval]). *)
Definition truthy_sub_question_id_parses (sub_question_id : option string) : bool :=
  match sub_question_id with
  | None => true
  | Some sqid => negb (PyStr.truthy sqid) || returns (parse_question_id sqid)
  end.

(** The statistics the reranking stage reports when they are disabled. *)
Definition zero_fit_stats : RetrievalFitStats :=
  {| fit_score_lift := 0%float; rerank_effect := 0%float; fit_scores := ∅ |}.

(** The list the reranking stage works on, given the outcome of the
    reranker: what the reranker returned when one is configured, the
    verified documents otherwise. *)
Definition reranked_of (state : ExpandedRetrievalState.t) (search_query : SearchQuery)
    (reranked : list pyobj) : Prop :=
  if rerank_configured search_query
  then rerank_sections search_query (ExpandedRetrievalState.verified_documents state)
       = Returns reranked
  else reranked = PySection <$> ExpandedRetrievalState.verified_documents state.

Definition preprocessed (state : ExpandedRetrievalState.t) (search_query : SearchQuery)
  : Prop :=
  let core := ExpandedRetrievalState.core state in
  retrieval_preprocessing
    (default (search_request_query (subgraph_config core))
             (ExpandedRetrievalState.question state))
    (user (subgraph_search_tool core)) (subgraph_fast_llm core)
  = Returns search_query.

(** The search query the reranking stage of a run on [input] works with:
    the one the preprocessing of the question of the run returns. *)
Definition reranking_query (input : ExpandedRetrievalInput.t) (search_query : SearchQuery)
  : Prop :=
  let core := ExpandedRetrievalInput.core input in
  retrieval_preprocessing
    (default (search_request_query (subgraph_config core))
             (ExpandedRetrievalInput.question input))
    (user (subgraph_search_tool core)) (subgraph_fast_llm core)
  = Returns search_query.

Definition reranking_update (state : ExpandedRetrievalState.t) (reranked : list pyobj)
  : DocRerankingUpdate :=
  {| rr_reranked_documents :=
       slice_to AGENT_RERANKING_MAX_QUERY_RETRIEVAL_RESULTS (sections_only reranked);
     rr_sub_question_retrieval_stats :=
       if AGENT_RERANKING_STATS
       then get_fit_scores (PySection <$> ExpandedRetrievalState.verified_documents state)
                           reranked
       else Some zero_fit_stats |}.

(** The step of the first loop on one document. *)
Definition collect_step (chunk_scores : chunk_scores_t) (doc : InferenceSection)
  : chunk_scores_t :=
  match score (center_chunk doc) with
  | Some s => chunk_scores_append (doc_chunk_id doc) (Some s) chunk_scores
  | None => chunk_scores
  end.

(** The QueryResults without the documents of one identity. *)
Definition without_key (key : string * Z) (results : list QueryResult)
  : list QueryResult :=
  (fun qr =>
     {| query := query qr;
        search_results :=
          filter (fun doc => identity_key doc <> key) (search_results qr);
        stats := stats qr |}) <$> results.


(** The pair that tags the tool-response events of [doc_retrieval]: the
    parsed sub-question id when it is truthy, (0, 0) otherwise. *)
Definition retrieval_tag (sub_question_id : option string) : Z * Z :=
  match sub_question_id with
  | Some sqid =>
      if PyStr.truthy sqid then
        match parse_question_id sqid with
        | Returns tag => tag
        | Raises _ => (0, 0)
        end
      else (0, 0)
  | None => (0, 0)
  end.

(** The event [doc_retrieval] emits for a tool response. *)
Definition tool_response_event (tag : Z * Z) (r : ToolResponse) : event :=
  ToolResponseEvent
    {| etr_id := id r; etr_response := response r;
       etr_level := tag.1; etr_level_question_nr := tag.2 |}.

(** The events of a trace that reach the reranker. *)
Definition is_rerank_call (e : event) : bool :=
  match e with RerankSections _ _ => true | _ => false end.

(** The list stored in [chunk_scores] under a key, empty for a key that is
    not there. *)
Fixpoint chunk_scores_get (k : string) (d : chunk_scores_t) : list (option float) :=
  match d with
  | [] => []
  | (k', vs) :: d' => if decide (k = k') then vs else chunk_scores_get k d'
  end.

(** The chunk keys that occur with a score in the QueryResults, in order
    of retrieval. *)
Definition scored_keys (results : list QueryResult) : list string :=
  doc_chunk_id <$> filter (fun doc => has_score doc = true) (retrieved_of results).

(** Drops from the context the parameters of the section that the goal
    does not mention, so that a solver cannot pick them up. *)
Ltac drop_parameters :=
  try clear np_mean; try clear rerank_sections; try clear retrieval_preprocessing;
  try clear get_fit_scores; try clear parse_question_id; try clear VERIFIER_PROMPT;
  try clear REWRITE_PROMPT_MULTI_ORIGINAL; try clear SEARCH_RESPONSE_SUMMARY_ID;
  try clear AGENT_RETRIEVAL_STATS; try clear AGENT_RERANKING_STATS;
  try clear AGENT_RERANKING_MAX_QUERY_RETRIEVAL_RESULTS;
  try clear AGENT_MAX_QUERY_RETRIEVAL_RESULTS.

(** ** Facts about the string operations *)

Lemma app_empty_l (s : string) : EmptyString +:+ s = s.
Proof. reflexivity. Qed.

Lemma app_String (a : ascii) (s t : string) : String a s +:+ t = String a (s +:+ t).
Proof. reflexivity. Qed.

Lemma blank_lstrip (s : string) : PyStr.blank (PyStr.lstrip s) = PyStr.blank s.
Proof.
  induction s as [|c s IH]; [done|]. simpl.
  destruct (PyStr.isspace c) eqn:Hc; simpl; [done|]. by rewrite Hc.
Qed.

Lemma lstrip_empty_iff (s : string) :
  PyStr.lstrip s = EmptyString <-> PyStr.blank s = true.
Proof.
  induction s as [|c s IH]; [done|]. simpl.
  destruct (PyStr.isspace c); simpl; [done|]. split; discriminate.
Qed.

Lemma blank_rev_app (s acc : string) :
  PyStr.blank (String.rev_app s acc) = PyStr.blank s && PyStr.blank acc.
Proof.
  revert acc. induction s as [|c s IH]; intros acc; [done|]. simpl.
  rewrite IH. simpl. destruct (PyStr.isspace c), (PyStr.blank s); done.
Qed.

Lemma blank_rev (s : string) : PyStr.blank (String.rev s) = PyStr.blank s.
Proof. unfold String.rev. rewrite blank_rev_app. simpl. by rewrite andb_true_r. Qed.

Lemma rev_app_empty (s acc : string) :
  String.rev_app s acc = EmptyString -> s = EmptyString /\ acc = EmptyString.
Proof.
  revert acc. induction s as [|c s IH]; intros acc; [done|]. simpl.
  intros H. apply IH in H as [_ H]. discriminate.
Qed.

Lemma rev_empty_iff (s : string) : String.rev s = EmptyString <-> s = EmptyString.
Proof.
  split; [|by intros ->]. intros H. by apply rev_app_empty in H as [? _].
Qed.

(** [not s.strip()] holds exactly for the strings made of white space. *)
Lemma strip_falsy_iff (s : string) :
  PyStr.truthy (PyStr.strip s) = false <-> PyStr.blank s = true.
Proof.
  unfold PyStr.strip, PyStr.rstrip.
  transitivity (String.rev (PyStr.lstrip (String.rev (PyStr.lstrip s))) = EmptyString).
  { destruct (String.rev _); simpl; split; done. }
  rewrite rev_empty_iff, lstrip_empty_iff, blank_rev. by rewrite blank_lstrip.
Qed.

Lemma startswith_spec (p s : string) :
  PyStr.startswith p s = true <-> exists suf, s = p +:+ suf.
Proof.
  revert s. induction p as [|a p IH]; intros s.
  - split; [|by destruct s]. intros _. by exists s.
  - destruct s as [|b s]; simpl.
    + split; [done|]. intros [suf H]. by rewrite app_String in H.
    + rewrite andb_true_iff, IH. split.
      * intros [Hab [suf ->]]. apply Ascii.eqb_eq in Hab as ->.
        by exists suf.
      * intros [suf H]. rewrite app_String in H. injection H as -> ->.
        split; [apply Ascii.eqb_refl|by exists suf].
Qed.

(** [needle in hay] holds exactly when [hay] is [pre + needle + suf]. *)
Lemma contains_spec (needle hay : string) :
  PyStr.contains needle hay = true <->
  exists pre suf, hay = pre +:+ needle +:+ suf.
Proof.
  induction hay as [|c hay IH]; simpl.
  - rewrite orb_false_r, startswith_spec. split.
    + intros [suf H]. by exists EmptyString, suf.
    + intros [[|a pre] [suf H]]; [by exists suf|]. by rewrite app_String in H.
  - rewrite orb_true_iff, startswith_spec, IH. split.
    + intros [[suf H]|[pre [suf H]]].
      * by exists EmptyString, suf.
      * exists (String c pre), suf. by rewrite app_String, H.
    + intros [[|a pre] [suf H]].
      * left. by exists suf.
      * right. rewrite app_String in H. injection H as -> ->. by exists pre, suf.
Qed.

Lemma split_nonempty (sep : ascii) (s : string) : PyStr.split sep s <> [].
Proof.
  destruct s as [|c s]; simpl; [done|].
  destruct (Ascii.eqb c sep); [done|]. by destruct (PyStr.split sep s).
Qed.

Lemma join_split (sep : ascii) (s : string) :
  PyStr.join (String sep EmptyString) (PyStr.split sep s) = s.
Proof.
  induction s as [|c s IH]; [done|]. simpl.
  pose proof (split_nonempty sep s) as Hne.
  destruct (Ascii.eqb c sep) eqn:Hc.
  - apply Ascii.eqb_eq in Hc as ->.
    destruct (PyStr.split sep s) as [|w ws]; [done|].
    change (EmptyString +:+ String sep EmptyString +:+
              PyStr.join (String sep EmptyString) (w :: ws) = String sep s).
    by rewrite IH.
  - destruct (PyStr.split sep s) as [|w ws]; [done|].
    destruct ws as [|w' ws]; simpl in *; [by rewrite IH|].
    by rewrite app_String, IH.
Qed.

Lemma occurs_app (c : ascii) (s t : string) :
  PyStr.occurs c (s +:+ t) <-> PyStr.occurs c s \/ PyStr.occurs c t.
Proof. drop_parameters.
  induction s as [|a s IH].
  - rewrite app_empty_l. simpl. tauto.
  - rewrite app_String. simpl. rewrite IH. tauto.
Qed.

Lemma pretty_N_char_no_underscore (x : N) : pretty_N_char x <> "_"%char.
Proof. unfold pretty_N_char. repeat case_match; done. Qed.

Lemma pretty_N_go_no_underscore (x : N) (s : string) :
  ~ PyStr.occurs "_" s -> ~ PyStr.occurs "_" (pretty_N_go x s).
Proof.
  revert s. induction (N.lt_wf_0 x) as [x _ IH]; intros s Hs.
  destruct (decide (x = 0%N)) as [->|Hx]; [by rewrite pretty_N_go_0|].
  rewrite pretty_N_go_step by lia. apply IH.
  - apply N.div_lt; lia.
  - simpl. intros [H|H]; [|done]. by apply pretty_N_char_no_underscore in H.
Qed.

Lemma pretty_N_no_underscore (x : N) : ~ PyStr.occurs "_" (pretty x).
Proof. drop_parameters.
  unfold pretty, pretty_N. destruct (decide (x = 0%N)) as [_|_].
  - simpl. intros [H|[]]. discriminate.
  - apply pretty_N_go_no_underscore. simpl. tauto.
Qed.

(** The decimal form of an integer has no underscore. *)
Lemma of_int_no_underscore (n : Z) : ~ PyStr.occurs "_" (PyStr.of_int n).
Proof.
  unfold PyStr.of_int, pretty, pretty_Z. destruct n as [|p|p].
  - simpl. intros [H|[]]. discriminate.
  - apply pretty_N_no_underscore.
  - rewrite occurs_app. intros [H|H].
    + simpl in H. destruct H as [H|[]]. discriminate.
    + by apply pretty_N_no_underscore in H.
Qed.

Lemma underscore_split_unique (a b x y : string) :
  ~ PyStr.occurs "_" x -> ~ PyStr.occurs "_" y ->
  a +:+ "_" +:+ x = b +:+ "_" +:+ y -> a = b /\ x = y.
Proof.
  intros Hx Hy. revert b. induction a as [|c a IH]; intros [|d b] H.
  - rewrite !app_String, !app_empty_l in H. by injection H.
  - rewrite !app_String, !app_empty_l in H. injection H as <- ->.
    destruct Hx. rewrite occurs_app. right. simpl. by left.
  - rewrite !app_String, !app_empty_l in H. injection H as -> <-.
    destruct Hy. rewrite occurs_app. right. simpl. by left.
  - rewrite !app_String in H. injection H as -> H.
    apply IH in H as [-> ->]. done.
Qed.

(** Two documents have the same chunk key exactly when they have the same
    identity pair. *)
Lemma make_chunk_key_inj (d1 d2 : string) (c1 c2 : Z) :
  make_chunk_key d1 c1 = make_chunk_key d2 c2 -> d1 = d2 /\ c1 = c2.
Proof.
  unfold make_chunk_key. intros H.
  apply underscore_split_unique in H as [-> H];
    [| apply of_int_no_underscore | apply of_int_no_underscore ].
  split; [done|]. by apply (inj pretty) in H.
Qed.

Lemma doc_chunk_id_eq_iff (d1 d2 : InferenceSection) :
  doc_chunk_id d1 = doc_chunk_id d2 <-> identity_key d1 = identity_key d2.
Proof.
  unfold doc_chunk_id, identity_key. split.
  - intros H. apply make_chunk_key_inj in H as [-> ->]. done.
  - intros H. injection H as -> ->. done.
Qed.

(** ** Facts about the node monad *)

Lemma result_of_bind {A B : Type} (m : M A) (f : A -> M B) :
  result_of (m ≫= f)
  = match result_of m with
    | Returns a => result_of (f a)
    | Raises e => Raises e
    end.
Proof.
  destruct m as [t [a|e]]; unfold mbind, M_bind, result_of; simpl; [|done].
  by destruct (f a).
Qed.

Lemma trace_of_bind {A B : Type} (m : M A) (f : A -> M B) :
  trace_of (m ≫= f)
  = trace_of m ++ match result_of m with
                  | Returns a => trace_of (f a)
                  | Raises e => []
                  end.
Proof.
  destruct m as [t [a|e]]; unfold mbind, M_bind, result_of, trace_of; simpl.
  - by destruct (f a).
  - by rewrite app_nil_r.
Qed.

Lemma result_of_emit_bind {B : Type} (e : event) (f : unit -> M B) :
  result_of (emit e ≫= f) = result_of (f tt).
Proof. by rewrite result_of_bind. Qed.

Lemma result_of_call_bind {A B : Type} (e : event) (o : outcome A) (f : A -> M B) :
  result_of (call e o ≫= f)
  = match o with Returns a => result_of (f a) | Raises x => Raises x end.
Proof. by rewrite result_of_bind. Qed.

Lemma result_of_lift_bind {A B : Type} (o : outcome A) (f : A -> M B) :
  result_of (lift o ≫= f)
  = match o with Returns a => result_of (f a) | Raises x => Raises x end.
Proof. by rewrite result_of_bind. Qed.

Lemma result_of_ret_bind {A B : Type} (a : A) (f : A -> M B) :
  result_of (mret a ≫= f) = result_of (f a).
Proof. by rewrite result_of_bind. Qed.

Lemma result_of_ret {A : Type} (a : A) : result_of (mret a) = Returns a.
Proof. done. Qed.

Lemma trace_of_emit_bind {B : Type} (e : event) (f : unit -> M B) :
  trace_of (emit e ≫= f) = e :: trace_of (f tt).
Proof. by rewrite trace_of_bind. Qed.

Lemma trace_of_call_bind {A B : Type} (e : event) (o : outcome A) (f : A -> M B) :
  trace_of (call e o ≫= f)
  = e :: match o with Returns a => trace_of (f a) | Raises _ => [] end.
Proof. by rewrite trace_of_bind. Qed.

Lemma trace_of_lift_bind {A B : Type} (o : outcome A) (f : A -> M B) :
  trace_of (lift o ≫= f)
  = match o with Returns a => trace_of (f a) | Raises _ => [] end.
Proof. by rewrite trace_of_bind. Qed.

Lemma trace_of_ret_bind {A B : Type} (a : A) (f : A -> M B) :
  trace_of (mret a ≫= f) = trace_of (f a).
Proof. by rewrite trace_of_bind. Qed.

Lemma Forall2_elem_of_r {A B : Type} (P : A -> B -> Prop) (l : list A) (k : list B)
    (y : B) :
  Forall2 P l k -> y ∈ k -> exists x, x ∈ l /\ P x y.
Proof.
  induction 1 as [|x y' l k Hxy _ IH]; intros Hy.
  - by apply elem_of_nil in Hy.
  - apply elem_of_cons in Hy as [->|Hy].
    + exists x. split; [apply elem_of_cons; by left|done].
    + destruct (IH Hy) as (x' & Hx' & HP). exists x'.
      split; [apply elem_of_cons; by right|done].
Qed.

Lemma bind_returns {A B : Type} (m : M A) (f : A -> M B) (b : B) :
  result_of (m ≫= f) = Returns b ->
  exists a, result_of m = Returns a /\ result_of (f a) = Returns b.
Proof.
  rewrite result_of_bind. destruct (result_of m) as [a|e]; [|done]. by exists a.
Qed.

Lemma mapM_returns {A B : Type} (f : A -> M B) (l : list A) (ys : list B) :
  result_of (mapM f l) = Returns ys ->
  Forall2 (fun x y => result_of (f x) = Returns y) l ys.
Proof.
  revert ys. induction l as [|x l IH]; intros ys; cbn [mapM].
  - intros [= <-]. constructor.
  - intros H. apply bind_returns in H as (y & Hy & H).
    apply bind_returns in H as (ys' & Hys & H).
    injection H as <-. constructor; [done|by apply IH].
Qed.

(** ** Facts about the chunk statistics *)

Lemma chunk_scores_append_keys (k : string) (v : option float) (d : chunk_scores_t) :
  (chunk_scores_append k v d).*1 = if decide (k ∈ d.*1) then d.*1 else d.*1 ++ [k].
Proof. drop_parameters.
  induction d as [|[k' vs] d IH]; [done|].
  cbn [chunk_scores_append]. rewrite fmap_cons. cbn [fst].
  destruct (decide (k = k')) as [->|Hk].
  - rewrite fmap_cons. cbn [fst].
    rewrite decide_True by (apply elem_of_cons; by left). done.
  - rewrite fmap_cons, IH. cbn [fst]. destruct (decide (k ∈ d.*1)).
    + rewrite decide_True by (apply elem_of_cons; by right). done.
    + rewrite decide_False by (rewrite elem_of_cons; tauto). done.
Qed.

Lemma collect_chunk_scores_flat (results : list QueryResult) :
  collect_chunk_scores results = foldl collect_step [] (retrieved_of results).
Proof.
  unfold collect_chunk_scores, retrieved_of. generalize (@nil (string * list (option float))).
  induction results as [|qr results IH]; intros acc; simpl; [done|].
  rewrite foldl_app. apply IH.
Qed.

Lemma collect_step_keys (acc : chunk_scores_t) (docs : list InferenceSection) :
  NoDup acc.*1 ->
  NoDup (foldl collect_step acc docs).*1 /\
  forall k, k ∈ (foldl collect_step acc docs).*1 <->
            k ∈ acc.*1 \/ k ∈ doc_chunk_id <$> filter (fun d => has_score d = true) docs.
Proof. drop_parameters.
  revert acc. induction docs as [|doc docs IH]; intros acc Hnd; cbn [foldl].
  - split; [done|]. intros k. rewrite filter_nil, fmap_nil, elem_of_nil. tauto.
  - assert (NoDup (collect_step acc doc).*1 /\
            forall k, k ∈ (collect_step acc doc).*1 <->
                      k ∈ acc.*1 \/ (has_score doc = true /\ k = doc_chunk_id doc))
      as [Hnd' Hel].
    { unfold collect_step, has_score. destruct (score (center_chunk doc)).
      - rewrite chunk_scores_append_keys. case_decide as Hin.
        + split; [done|]. intros k. split; [tauto|]. intros [?|[_ ->]]; done.
        + split.
          * apply NoDup_app. split_and!; [done| |apply NoDup_singleton].
            intros x Hx ->%list_elem_of_singleton. done.
          * intros k. rewrite elem_of_app, list_elem_of_singleton. naive_solver.
      - split; [done|]. intros k. split; [tauto|]. intros [?|[? _]]; done. }
    destruct (IH _ Hnd') as [Hnd'' Hel'']. split; [done|].
    intros k. rewrite Hel'', Hel, filter_cons.
    case_decide as Hs; rewrite ?fmap_cons, ?elem_of_cons; naive_solver.
Qed.

(** The keys of [chunk_scores] are the chunk keys that occur with a score,
    each once. *)
Lemma collect_chunk_scores_keys (results : list QueryResult) :
  NoDup (collect_chunk_scores results).*1 /\
  forall k, k ∈ (collect_chunk_scores results).*1 <->
            k ∈ doc_chunk_id <$> filter (fun d => has_score d = true) (retrieved_of results).
Proof. drop_parameters.
  rewrite collect_chunk_scores_flat.
  destruct (collect_step_keys [] (retrieved_of results)) as [Hnd Hel]; [constructor|].
  split; [done|]. intros k. rewrite Hel. simpl. rewrite elem_of_nil. tauto.
Qed.

Lemma chunk_stats_fold_counts (verified_ids : list string) (items : chunk_scores_t)
    (raw : raw_chunk_stats) :
  let raw' := foldl (chunk_stats_step verified_ids) raw items in
  (raw_verified_count raw' + raw_rejected_count raw'
   = raw_verified_count raw + raw_rejected_count raw + length items)%nat.
Proof.
  revert raw. induction items as [|[k vs] items IH]; intros raw; simpl; [lia|].
  rewrite IH. case_decide; simpl; lia.
Qed.

Lemma chunk_stats_fold_dismissed (verified_ids : list string) (items : chunk_scores_t)
    (raw : raw_chunk_stats) (k : string) :
  k ∈ raw_dismissed (foldl (chunk_stats_step verified_ids) raw items) ->
  k ∈ raw_dismissed raw \/ k ∈ items.*1.
Proof. drop_parameters.
  revert raw. induction items as [|[k' vs] items IH]; intros raw; simpl; [tauto|].
  intros H. apply IH in H as [H|H]; [|right; apply elem_of_cons; tauto].
  revert H. case_decide; simpl; [tauto|].
  rewrite elem_of_app, list_elem_of_singleton, elem_of_cons. tauto.
Qed.

(** Where the rejected average divides, the rejected count is not zero. *)
Lemma chunk_stats_fold_rejected (verified_ids : list string) (items : chunk_scores_t)
    (raw : raw_chunk_stats) :
  (is_Some (raw_rejected_scores raw) -> (0 < raw_rejected_count raw)%nat) ->
  let raw' := foldl (chunk_stats_step verified_ids) raw items in
  is_Some (raw_rejected_scores raw') -> (0 < raw_rejected_count raw')%nat.
Proof.
  revert raw. induction items as [|[k vs] items IH]; intros raw Hraw; simpl; [done|].
  apply IH. case_decide; simpl; [done|]. intros _. lia.
Qed.

(** The rejected average is only computed with a rejected count that is
    not zero, and the verified average divides only under the test that
    its count is not zero: no division by zero is reached. *)
Lemma chunk_stats_rejected_average_defined (verified_documents : list InferenceSection)
    (expanded_retrieval_results : list QueryResult) :
  let chunk_stats :=
    _calculate_sub_question_retrieval_stats verified_documents expanded_retrieval_results in
  is_Some (AgentChunkStats.rejected_avg_scores chunk_stats) ->
  (0 < AgentChunkStats.rejected_count chunk_stats)%nat.
Proof.
  cbn zeta. unfold _calculate_sub_question_retrieval_stats.
  cbn [AgentChunkStats.rejected_avg_scores AgentChunkStats.rejected_count].
  intros Hsome. apply chunk_stats_fold_rejected.
  - cbn. by intros [? ?].
  - destruct (raw_rejected_scores _); [done|]. by destruct Hsome.
Qed.

Lemma remove_dups_length_congr {A B C : Type} `{EqDecision B} `{EqDecision C}
    (f : A -> B) (g : A -> C) (l : list A) :
  (forall x y, f x = f y <-> g x = g y) ->
  length (remove_dups (f <$> l)) = length (remove_dups (g <$> l)).
Proof. drop_parameters.
  intros Hfg. induction l as [|x l IH]; simpl; [done|].
  assert (f x ∈ f <$> l <-> g x ∈ g <$> l) as Hin.
  { rewrite !list_elem_of_fmap. split; intros (y & Hy & ?); exists y;
      (split; [by apply Hfg|done]). }
  destruct (decide_rel _ (f x) _), (decide_rel _ (g x) _); simpl; tauto || by f_equal.
Qed.

Lemma NoDup_length_remove_dups {A : Type} `{EqDecision A} (l k : list A) :
  NoDup l -> (forall x, x ∈ l <-> x ∈ k) -> length l = length (remove_dups k).
Proof.
  intros Hl Hlk. apply Permutation_length, NoDup_Permutation;
    [done|apply NoDup_remove_dups|].
  intros x. by rewrite Hlk, elem_of_remove_dups.
Qed.

Lemma retrieved_of_without_key (key : string * Z) (results : list QueryResult) :
  retrieved_of (without_key key results)
  = filter (fun doc => identity_key doc <> key) (retrieved_of results).
Proof.
  unfold retrieved_of, without_key.
  induction results as [|qr results IH]; [done|].
  rewrite !fmap_cons. simpl. rewrite filter_app. f_equal. apply IH.
Qed.

Lemma collect_step_skip_unscored (key : string * Z) (docs : list InferenceSection)
    (acc : chunk_scores_t) :
  (forall doc, doc ∈ docs -> identity_key doc = key -> score (center_chunk doc) = None) ->
  foldl collect_step acc docs
  = foldl collect_step acc (filter (fun doc => identity_key doc <> key) docs).
Proof.
  revert acc. induction docs as [|doc docs IH]; intros acc Hnone; [done|].
  rewrite filter_cons. cbn [foldl].
  assert (forall d, d ∈ docs -> identity_key d = key -> score (center_chunk d) = None)
    as Hrest by (intros d Hd; apply Hnone, elem_of_cons; by right).
  case_decide as Hkey.
  - cbn [foldl]. by apply IH.
  - assert (identity_key doc = key) as Heq by (by destruct (decide (identity_key doc = key))).
    unfold collect_step at 2. rewrite (Hnone doc); [by apply IH| |done].
    apply elem_of_cons. by left.
Qed.

(** ** Facts about the nodes *)

Lemma strip_truthy_iff (s : string) :
  PyStr.truthy (PyStr.strip s) = true <-> PyStr.blank s = false.
Proof. drop_parameters.
  pose proof (strip_falsy_iff s) as H.
  destruct (PyStr.truthy (PyStr.strip s)), (PyStr.blank s); naive_solver.
Qed.

Lemma doc_retrieval_step_returns (sub_question_id : option string)
    (acc : list InferenceSection) (r : ToolResponse) :
  truthy_sub_question_id_parses sub_question_id = true ->
  response_well_formed r = true ->
  result_of (doc_retrieval_step sub_question_id acc r) = Returns (capture_step acc r).
Proof.
  unfold truthy_sub_question_id_parses, response_well_formed, doc_retrieval_step,
    capture_step.
  intros Hparse Hwf. rewrite result_of_bind.
  assert (forall (docs : list InferenceSection),
            result_of
              ('(level, question_nr) ←
                 match sub_question_id with
                 | Some sqid =>
                     if PyStr.truthy sqid then lift (parse_question_id sqid)
                     else mret (0, 0)
                 | None => mret (0, 0)
                 end;
               _ ← emit (ToolResponseEvent
                           {| etr_id := id r; etr_response := response r;
                              etr_level := level;
                              etr_level_question_nr := question_nr |});
               mret docs) = Returns docs) as Hrest.
  { intros docs.
    destruct sub_question_id as [sqid|]; [|done].
    destruct (PyStr.truthy sqid); [|done]. simpl in Hparse.
    rewrite result_of_lift_bind.
    by destruct (parse_question_id sqid) as [[level question_nr]|]. }
  destruct (decide (id r = SEARCH_RESPONSE_SUMMARY_ID)).
  - destruct (response r); [|done]. apply Hrest.
  - apply Hrest.
Qed.

Lemma doc_retrieval_loop_returns (sub_question_id : option string)
    (responses : list ToolResponse) (acc : list InferenceSection) :
  truthy_sub_question_id_parses sub_question_id = true ->
  forallb response_well_formed responses = true ->
  result_of (foldM (doc_retrieval_step sub_question_id) acc responses)
  = Returns (foldl capture_step acc responses).
Proof.
  intros Hparse. revert acc.
  induction responses as [|r responses IH]; intros acc Hwf; [done|].
  cbn [forallb] in Hwf. apply andb_true_iff in Hwf as [Hr Hwf].
  cbn [foldM foldl]. rewrite result_of_bind, doc_retrieval_step_returns by done.
  by apply IH.
Qed.

(** Whatever [doc_retrieval] returns, its retrieved documents are those of
    the QueryResults it returns. *)
Lemma doc_retrieval_returns (state : RetrievalInput.t) (update : DocRetrievalUpdate) :
  result_of (doc_retrieval state) = Returns update ->
  dr_retrieved_documents update = retrieved_of (dr_expanded_retrieval_results update).
Proof.
  unfold doc_retrieval.
  destruct (negb (PyStr.truthy (PyStr.strip (RetrievalInput.query_to_retrieve state)))).
  - intros [= <-]. done.
  - intros H. apply bind_returns in H as (_ & _ & H).
    apply bind_returns in H as ([responses pipeline] & _ & H).
    apply bind_returns in H as (docs & _ & H).
    injection H as <-. unfold retrieved_of. simpl. by rewrite app_nil_r.
Qed.

Lemma slice_to_sublist {A : Type} (n : Z) (l : list A) : slice_to n l `prefix_of` l.
Proof. unfold slice_to. case_match; apply prefix_take. Qed.

Lemma slice_to_length {A : Type} (n : Z) (l : list A) :
  0 <= n -> Z.of_nat (length (slice_to n l)) <= n.
Proof.
  intros Hn. unfold slice_to. rewrite (proj2 (Z.leb_le 0 n)) by done.
  rewrite length_take. lia.
Qed.

Lemma elem_of_sections_only (d : InferenceSection) (l : list pyobj) :
  d ∈ sections_only l <-> PySection d ∈ l.
Proof.
  unfold sections_only. rewrite list_elem_of_omap. split.
  - intros ([d'|] & Hin & [= <-]). done.
  - intros Hin. by exists (PySection d).
Qed.

Lemma sections_only_sections (docs : list InferenceSection) :
  sections_only (PySection <$> docs) = docs.
Proof.
  unfold sections_only. induction docs as [|d docs IH]; [done|].
  rewrite fmap_cons. cbn [omap list_omap]. by rewrite IH.
Qed.

Lemma doc_reranking_run (state : ExpandedRetrievalState.t) (search_query : SearchQuery)
    (reranked : list pyobj) :
  preprocessed state search_query -> reranked_of state search_query reranked ->
  result_of (doc_reranking state) = Returns (reranking_update state reranked).
Proof.
  unfold preprocessed, reranked_of, doc_reranking. cbn zeta. intros Hpre Hrr.
  rewrite result_of_emit_bind, result_of_call_bind, Hpre.
  destruct (rerank_configured search_query).
  - by rewrite result_of_call_bind, Hrr.
  - by rewrite result_of_bind, result_of_emit_bind, result_of_ret, Hrr.
Qed.

Lemma doc_reranking_returns (state : ExpandedRetrievalState.t)
    (update : DocRerankingUpdate) :
  result_of (doc_reranking state) = Returns update ->
  exists search_query reranked,
    preprocessed state search_query /\ reranked_of state search_query reranked /\
    update = reranking_update state reranked.
Proof.
  unfold preprocessed, reranked_of, doc_reranking. cbn zeta. intros H.
  apply bind_returns in H as (_ & _ & H).
  apply bind_returns in H as (search_query & Hpre & H).
  apply bind_returns in H as (reranked & Hrr & H).
  exists search_query, reranked. injection H as <-. split; [done|]. split; [|done].
  destruct (rerank_configured search_query); [done|].
  apply bind_returns in Hrr as (_ & _ & Hrr). by injection Hrr as <-.
Qed.

Lemma dispatch_separated_returns (level question_nr : Z) (tokens : list string)
    (num : Z) :
  result_of (dispatch_separated_from num tokens (dispatch_subquery level question_nr))
  = Returns tokens.
Proof.
  revert num. induction tokens as [|token tokens IH]; intros num; [done|].
  cbn [dispatch_separated_from].
  rewrite result_of_bind.
  change (result_of (dispatch_subquery level question_nr token num)) with (Returns tt).
  by rewrite result_of_bind, IH.
Qed.

(** Whenever query expansion returns, its list of queries is not empty. *)
Lemma expand_queries_returns_nonempty (state : ExpandedRetrievalInput.t)
    (update : QueryExpansionUpdate) :
  result_of (expand_queries state) = Returns update -> qe_expanded_queries update <> [].
Proof.
  unfold expand_queries. intros H.
  apply bind_returns in H as ([level question_nr] & _ & H).
  apply bind_returns in H as (_ & _ & H).
  apply bind_returns in H as (tokens & _ & H).
  apply bind_returns in H as (llm_response_list & _ & H).
  apply bind_returns in H as (llm_response & _ & H).
  injection H as <-. apply split_nonempty.
Qed.

Lemma doc_verification_returns (state : DocVerificationInput.t)
    (update : DocVerificationUpdate) :
  result_of (doc_verification state) = Returns update ->
  forall doc, doc ∈ dv_verified_documents update ->
              doc = DocVerificationInput.doc_to_verify state.
Proof.
  unfold doc_verification. intros H.
  apply bind_returns in H as (response & _ & H). injection H as <-.
  intros doc. cbn [dv_verified_documents]. destruct (says_yes response).
  - by intros ->%list_elem_of_singleton.
  - by intros ?%elem_of_nil.
Qed.

Lemma verification_kickoff_documents (state : ExpandedRetrievalState.t)
    (input : DocVerificationInput.t) :
  input ∈ verification_kickoff state ->
  DocVerificationInput.doc_to_verify input
  ∈ ExpandedRetrievalState.retrieved_documents state.
Proof.
  unfold verification_kickoff. intros (doc & -> & Hdoc)%list_elem_of_fmap. done.
Qed.

(** ** Facts about the graph *)

(** A caught task returns what the task returned, or the neutral output. *)
Lemma caught_returns {A : Type} (fatal : exn -> bool) (neutral : A) (task : M A)
    (a : A) :
  result_of (caught fatal neutral task) = Returns a ->
  result_of task = Returns a \/ a = neutral.
Proof.
  unfold caught. destruct task as [t [a'|e]]; [by left|].
  destruct (fatal e); [done|]. intros [= <-]. by right.
Qed.

Lemma caught_never_fatal {A : Type} (neutral : A) (task : M A) :
  exists a, result_of (caught never_fatal neutral task) = Returns a.
Proof. destruct task as [t [a|e]]; [by exists a|by exists neutral]. Qed.

Lemma mapM_total {A B : Type} (f : A -> M B) (l : list A) :
  (forall x, exists y, result_of (f x) = Returns y) ->
  exists ys, result_of (mapM f l) = Returns ys.
Proof.
  intros Hf. induction l as [|x l [ys IH]]; [by exists []|].
  destruct (Hf x) as [y Hy]. exists (y :: ys). cbn [mapM].
  by rewrite result_of_bind, Hy, result_of_bind, IH.
Qed.

(** The graph returns a result bundle on every run, tasks that fail
    included, but the one run that the configuration error of query
    expansion aborts. *)
Lemma expanded_retrieval_graph_returns (input : ExpandedRetrievalInput.t) :
  (exists update, result_of (expanded_retrieval_graph input) = Returns update)
  \/ (result_of (expand_queries input) = Raises configuration_error
      /\ result_of (expanded_retrieval_graph input) = Raises configuration_error).
Proof.
  unfold expanded_retrieval_graph. cbn zeta. rewrite result_of_bind.
  destruct (expand_queries input) as [t [expansion|e]] eqn:Hexp.
  2: destruct (is_configuration_error e) eqn:Hfatal.
  2: { right. unfold caught. rewrite Hfatal.
       by apply bool_decide_eq_true in Hfatal as ->. }
  all: left.
  all: unfold caught at 1; rewrite ?Hfatal; unfold result_of at 1; cbn [snd].
  all: rewrite result_of_bind.
  all: match goal with
       | |- context [mapM ?f ?l] =>
           destruct (mapM_total f l) as [retrievals ->];
             [intros q; apply caught_never_fatal|]
       end.
  all: rewrite result_of_bind.
  all: match goal with
       | |- context [result_of (mapM ?f ?l)] =>
           destruct (mapM_total f l) as [verifications ->];
             [intros task; apply caught_never_fatal|]
       end.
  all: rewrite result_of_bind.
  all: match goal with
       | |- context [result_of (caught never_fatal ?n ?task)] =>
           destruct (caught_never_fatal n task) as [reranking ->]
       end.
  all: by eexists.
Qed.

(** ** The properties *)

(** C1 (amended). The counts of the ChunkStats add up to the number of
    distinct (document_id, chunk_id) identity keys that occur with a score
    in the retrieved lists of the QueryResults; a key whose every
    occurrence has no score is not counted. *)
Theorem chunk_stats_counts_scored_keys (verified_documents : list InferenceSection)
    (expanded_retrieval_results : list QueryResult) :
  let chunk_stats :=
    _calculate_sub_question_retrieval_stats verified_documents expanded_retrieval_results in
  (AgentChunkStats.verified_count chunk_stats + AgentChunkStats.rejected_count chunk_stats)%nat
  = length (remove_dups
              (identity_key <$>
                 filter (fun doc => has_score doc = true)
                        (retrieved_of expanded_retrieval_results))).
Proof.
  cbn zeta. unfold _calculate_sub_question_retrieval_stats.
  cbn [AgentChunkStats.verified_count AgentChunkStats.rejected_count].
  rewrite chunk_stats_fold_counts. cbn [raw_chunk_stats_init raw_verified_count raw_rejected_count].
  rewrite <- (remove_dups_length_congr doc_chunk_id identity_key)
    by apply doc_chunk_id_eq_iff.
  destruct (collect_chunk_scores_keys expanded_retrieval_results) as [Hnd Hel].
  rewrite <- (length_fmap fst). by apply NoDup_length_remove_dups.
Qed.

(** C2 (amended). For a blank query (empty or white space only) the
    retrieval worker logs the skip and returns an update whose QueryResult
    list and retrieved-document list are both empty: it produces no
    QueryResult for the query, and it does not call the retrieval
    backend. *)
Theorem doc_retrieval_blank_query (state : RetrievalInput.t) :
  PyStr.blank (RetrievalInput.query_to_retrieve state) = true ->
  doc_retrieval state
  = ([LoggerWarning "Empty query, skipping retrieval"],
     Returns {| dr_expanded_retrieval_results := []; dr_retrieved_documents := [] |})
  /\ Forall (fun e => is_backend_call e = false) (trace_of (doc_retrieval state)).
Proof.
  intros Hblank. apply strip_falsy_iff in Hblank.
  unfold doc_retrieval. rewrite Hblank. cbn [negb]. split; [done|].
  by repeat constructor.
Qed.

(** C3 (amended). When the reranking stage runs to its end, its document
    list is the section entries of the list the reranker handed back (of
    the verified documents when no reranker is configured), cut to the
    cap: it has at most max_reranked_results entries for a cap that is not
    negative, it is a prefix of the verified documents when no reranker is
    configured, and it holds only verified documents when every section
    the reranker handed back is a verified document. *)
Theorem doc_reranking_documents (state : ExpandedRetrievalState.t)
    (search_query : SearchQuery) (reranked : list pyobj) :
  let verified_documents := ExpandedRetrievalState.verified_documents state in
  preprocessed state search_query ->
  reranked_of state search_query reranked ->
  exists update,
    result_of (doc_reranking state) = Returns update
    /\ rr_reranked_documents update
       = slice_to AGENT_RERANKING_MAX_QUERY_RETRIEVAL_RESULTS (sections_only reranked)
    /\ (0 <= AGENT_RERANKING_MAX_QUERY_RETRIEVAL_RESULTS ->
        Z.of_nat (length (rr_reranked_documents update))
        <= AGENT_RERANKING_MAX_QUERY_RETRIEVAL_RESULTS)
    /\ (rerank_configured search_query = false ->
        rr_reranked_documents update `prefix_of` verified_documents)
    /\ ((forall doc, PySection doc ∈ reranked -> doc ∈ verified_documents) ->
        forall doc, doc ∈ rr_reranked_documents update -> doc ∈ verified_documents).
Proof.
  cbn zeta. intros Hpre Hrr. exists (reranking_update state reranked).
  split; [by eapply doc_reranking_run|]. cbn [reranking_update rr_reranked_documents].
  split_and!.
  - done.
  - apply slice_to_length.
  - intros Hconf. unfold reranked_of in Hrr. rewrite Hconf in Hrr. subst reranked.
    rewrite sections_only_sections. apply slice_to_sublist.
  - intros Hsub doc Hdoc. apply Hsub, elem_of_sections_only.
    by eapply elem_of_prefix; [|apply slice_to_sublist].
Qed.

(** C4. Given the response of the model, the verifier returns without
    error; it emits the document it was given exactly when the content of
    the response is a string whose lowercased text contains "yes", and
    nothing otherwise (a response without "yes" or with a content that is
    not a string included). *)
Theorem doc_verification_yes_iff (state : DocVerificationInput.t)
    (response : MessageContent) :
  let doc_to_verify := DocVerificationInput.doc_to_verify state in
  invoke (subgraph_fast_llm (DocVerificationInput.core state))
         (VERIFIER_PROMPT (DocVerificationInput.question state)
                          (combined_content doc_to_verify))
  = Returns response ->
  exists verified_documents,
    result_of (doc_verification state)
    = Returns {| dv_verified_documents := verified_documents |}
    /\ (verified_documents = [doc_to_verify] \/ verified_documents = [])
    /\ (verified_documents = [doc_to_verify] <->
        exists s pre suf,
          response = ContentStr s /\ PyStr.lower s = pre +:+ "yes" +:+ suf).
Proof.
  cbn zeta. intros Hinvoke. eexists. split.
  - unfold doc_verification. rewrite result_of_call_bind, Hinvoke, result_of_ret.
    reflexivity.
  - unfold says_yes. destruct response as [s|parts].
    + destruct (PyStr.contains "yes" (PyStr.lower s)) eqn:Hyes.
      * split; [by left|]. split; [|done]. intros _.
        apply contains_spec in Hyes as (pre & suf & Hyes). by exists s, pre, suf.
      * split; [by right|]. split; [done|]. intros (s' & pre & suf & [= <-] & Hlow).
        assert (PyStr.contains "yes" (PyStr.lower s) = true) as Hc
          by (apply contains_spec; by exists pre, suf).
        congruence.
    + split; [by right|]. split; [done|]. by intros (s & pre & suf & ? & _).
Qed.

(** C5 (amended). Query expansion rewrites the question it is given as it
    is, blank or not, and uses the query of the original search request
    only when no question is supplied. When a chat session is configured,
    the sub-question id is absent or parses and the model streams at least
    one token, it returns the streamed text split at line breaks: a list
    that is never empty, and that holds the original query only if the
    model wrote it. *)
Theorem expand_queries_nonempty (state : ExpandedRetrievalInput.t) (session : string)
    (tokens : list string) :
  let core := ExpandedRetrievalInput.core state in
  let question :=
    match ExpandedRetrievalInput.question state with
    | Some q => q
    | None => search_request_query (subgraph_config core)
    end in
  chat_session_id (subgraph_config core) = Some session ->
  sub_question_id_parses (ExpandedRetrievalInput.sub_question_id state) = true ->
  stream (subgraph_fast_llm core) (REWRITE_PROMPT_MULTI_ORIGINAL question)
  = Returns tokens ->
  tokens <> [] ->
  exists expanded_queries,
    result_of (expand_queries state)
    = Returns {| qe_expanded_queries := expanded_queries |}
    /\ expanded_queries = PyStr.split newline (PyStr.join EmptyString tokens)
    /\ expanded_queries <> []
    /\ PyStr.join (String newline EmptyString) expanded_queries
       = PyStr.join EmptyString tokens
    /\ LlmStream (REWRITE_PROMPT_MULTI_ORIGINAL question)
       ∈ trace_of (expand_queries state).
Proof.
  cbn zeta. intros Hsession Hparse Hstream Htokens.
  set (question := match ExpandedRetrievalInput.question state with
                   | Some q => q
                   | None => search_request_query _
                   end) in *.
  assert (default (search_request_query
                     (subgraph_config (ExpandedRetrievalInput.core state)))
                  (ExpandedRetrievalInput.question state) = question) as Hq
    by (unfold question; by destruct (ExpandedRetrievalInput.question state)).
  unfold sub_question_id_parses in Hparse.
  eexists. split_and!; [|reflexivity|apply split_nonempty|apply join_split|].
  - unfold expand_queries. rewrite Hq, Hsession.
    destruct (ExpandedRetrievalInput.sub_question_id state) as [sqid|].
    + rewrite result_of_lift_bind.
      destruct (parse_question_id sqid) as [[level question_nr]|]; [|done].
      rewrite result_of_ret_bind, result_of_call_bind, Hstream.
      unfold dispatch_separated.
      rewrite result_of_bind, dispatch_separated_returns, result_of_bind.
      by destruct tokens.
    + rewrite result_of_ret_bind, result_of_ret_bind, result_of_call_bind, Hstream.
      unfold dispatch_separated.
      rewrite result_of_bind, dispatch_separated_returns, result_of_bind.
      by destruct tokens.
  - unfold expand_queries. rewrite Hq, Hsession.
    destruct (ExpandedRetrievalInput.sub_question_id state) as [sqid|].
    + rewrite trace_of_lift_bind.
      destruct (parse_question_id sqid) as [[level question_nr]|]; [|done].
      rewrite trace_of_ret_bind, trace_of_call_bind. apply elem_of_cons. by left.
    + rewrite trace_of_ret_bind, trace_of_ret_bind, trace_of_call_bind.
      apply elem_of_cons. by left.
Qed.

(** C6 (amended). Without a chat session id query expansion always fails
    before the model is invoked, with the error "chat_session_id must be
    provided for agent search" when the sub-question id is absent or
    parses. With a chat session id and a sub-question id that is absent or
    parses, nothing is raised before the model is invoked: the model
    stream is the first thing the node does. *)
Theorem expand_queries_chat_session_check (state : ExpandedRetrievalInput.t) :
  let core := ExpandedRetrievalInput.core state in
  let question :=
    default (search_request_query (subgraph_config core))
            (ExpandedRetrievalInput.question state) in
  (chat_session_id (subgraph_config core) = None ->
   exists e, expand_queries state = ([], Raises e))
  /\ (sub_question_id_parses (ExpandedRetrievalInput.sub_question_id state) = true ->
      (chat_session_id (subgraph_config core) = None ->
       expand_queries state
       = ([], Raises (ValueError "chat_session_id must be provided for agent search")))
      /\ (forall session,
            chat_session_id (subgraph_config core) = Some session ->
            exists rest,
              trace_of (expand_queries state)
              = LlmStream (REWRITE_PROMPT_MULTI_ORIGINAL question) :: rest)).
Proof.
  cbn zeta. unfold sub_question_id_parses. split_and!.
  - intros Hnone. unfold expand_queries. rewrite Hnone.
    destruct (ExpandedRetrievalInput.sub_question_id state) as [sqid|].
    + unfold lift. destruct (parse_question_id sqid) as [[level question_nr]|e].
      * by eexists.
      * by exists e.
    + by eexists.
  - intros Hparse. split.
    + intros Hnone. unfold expand_queries. rewrite Hnone.
      destruct (ExpandedRetrievalInput.sub_question_id state) as [sqid|]; [|done].
      unfold lift. by destruct (parse_question_id sqid) as [[level question_nr]|e].
    + intros session Hsession. unfold expand_queries. rewrite Hsession.
      destruct (ExpandedRetrievalInput.sub_question_id state) as [sqid|].
      * rewrite trace_of_lift_bind.
        destruct (parse_question_id sqid) as [[level question_nr]|]; [|done].
        rewrite trace_of_ret_bind, trace_of_call_bind. by eexists.
      * rewrite trace_of_ret_bind, trace_of_ret_bind, trace_of_call_bind. by eexists.
Qed.

(** C7. For a query that is not blank, whose backend run and response loop
    succeed, the retrieval worker returns one QueryResult holding the
    truncated captured sections. With retrieval statistics disabled its
    stats are None. With them enabled they are the fit scores of the
    pre-rerank candidates of the backend against the truncated result when
    the backend exposes a non-empty candidate list, and of the truncated
    result against itself when it exposes none (no pipeline, no candidate
    list, or an empty one). *)
Theorem doc_retrieval_fit_stats (state : RetrievalInput.t)
    (responses : list ToolResponse) (pipeline : option SearchPipeline) :
  let query_to_retrieve := RetrievalInput.query_to_retrieve state in
  PyStr.blank query_to_retrieve = false ->
  run (subgraph_search_tool (RetrievalInput.core state)) query_to_retrieve
  = Returns (responses, pipeline) ->
  truthy_sub_question_id_parses (RetrievalInput.sub_question_id state) = true ->
  forallb response_well_formed responses = true ->
  let retrieved :=
    slice_to AGENT_MAX_QUERY_RETRIEVAL_RESULTS (captured_sections responses) in
  exists fit_stats,
    result_of (doc_retrieval state)
    = Returns {| dr_expanded_retrieval_results :=
                   [ {| query := query_to_retrieve;
                        search_results := retrieved;
                        stats := fit_stats |} ];
                 dr_retrieved_documents := retrieved |}
    /\ (AGENT_RETRIEVAL_STATS = false -> fit_stats = None)
    /\ (AGENT_RETRIEVAL_STATS = true ->
        forall c cs, pipeline = Some {| _retrieved_sections := Some (c :: cs) |} ->
        fit_stats = get_fit_scores (PySection <$> c :: cs) (PySection <$> retrieved))
    /\ (AGENT_RETRIEVAL_STATS = true ->
        pipeline = None \/ pipeline = Some {| _retrieved_sections := None |}
        \/ pipeline = Some {| _retrieved_sections := Some [] |} ->
        fit_stats = get_fit_scores (PySection <$> retrieved) (PySection <$> retrieved)).
Proof.
  cbn zeta. intros Hblank Hrun Hparse Hwf. apply strip_truthy_iff in Hblank.
  eexists. split.
  - unfold doc_retrieval. rewrite Hblank. cbn [negb].
    rewrite result_of_emit_bind, result_of_call_bind, Hrun.
    rewrite result_of_bind, doc_retrieval_loop_returns by done.
    rewrite result_of_ret. reflexivity.
  - split_and!.
    + by intros ->.
    + by intros -> c cs ->.
    + by intros -> [->|[->| ->]].
Qed.

(** C8. With reranking statistics disabled, every run of the reranking
    stage that reaches its end reports a FitStats object with lift 0.0,
    rerank effect 0.0 and an empty score map, never None; and the stage
    reaches its end whenever its preprocessing and its reranker do. *)
Theorem doc_reranking_stats_disabled (state : ExpandedRetrievalState.t) :
  AGENT_RERANKING_STATS = false ->
  (forall update,
     result_of (doc_reranking state) = Returns update ->
     rr_sub_question_retrieval_stats update
     = Some {| fit_score_lift := 0%float; rerank_effect := 0%float; fit_scores := ∅ |})
  /\ (forall search_query reranked,
        preprocessed state search_query ->
        reranked_of state search_query reranked ->
        exists update,
          result_of (doc_reranking state) = Returns update
          /\ rr_sub_question_retrieval_stats update = Some zero_fit_stats).
Proof.
  intros Hstats. split.
  - intros update H. apply doc_reranking_returns in H as (q & reranked & _ & _ & ->).
    unfold reranking_update. cbn [rr_sub_question_retrieval_stats]. by rewrite Hstats.
  - intros q reranked Hpre Hrr. exists (reranking_update state reranked).
    split; [by eapply doc_reranking_run|].
    unfold reranking_update. cbn [rr_sub_question_retrieval_stats]. by rewrite Hstats.
Qed.

(** C9 (amended). Documents are compared by an attribute [f] of theirs:
    the whole record, or the identity pair (document_id, chunk_id). When
    the reranker, asked with the search query of the run and only when that
    query configures a reranker, hands back no section but those that
    compare equal to a document it was given, every document of the final
    result bundle compares equal to a document in the retrieved list of one
    of its QueryResults; when no reranker is configured nothing is asked
    of the reranker. Retrieval reports the documents of its QueryResult,
    verification emits nothing but the document it was given, reranking
    keeps sections of the reranker's list, the formatter passes the
    reranked list on unchanged, and a task that failed contributes no
    document. *)
Theorem no_document_fabricated (K : Type) (f : InferenceSection -> K)
    (input : ExpandedRetrievalInput.t) (update : ExpandedRetrievalUpdate) :
  (forall search_query docs reranked doc,
     reranking_query input search_query ->
     rerank_configured search_query = true ->
     rerank_sections search_query docs = Returns reranked ->
     PySection doc ∈ reranked -> f doc ∈ f <$> docs) ->
  result_of (expanded_retrieval_graph input) = Returns update ->
  forall doc,
    doc ∈ all_documents (expanded_retrieval_result update) ->
    exists query_result,
      query_result ∈ expanded_queries_results (expanded_retrieval_result update)
      /\ f doc ∈ f <$> search_results query_result.
Proof.
  intros Hcontract Hrun doc Hdoc. unfold expanded_retrieval_graph in Hrun.
  cbn zeta in Hrun.
  apply bind_returns in Hrun as (expansion & _ & Hrun).
  apply bind_returns in Hrun as (retrievals & Hretr & Hrun).
  apply bind_returns in Hrun as (verifications & Hver & Hrun).
  apply bind_returns in Hrun as (reranking & Hrr & Hrun).
  injection Hrun as <-.
  cbn [format_results expanded_retrieval_result all_documents expanded_queries_results
       with_reranked_documents with_verified_documents
       ExpandedRetrievalState.reranked_documents
       ExpandedRetrievalState.expanded_retrieval_results] in Hdoc |- *.
  apply mapM_returns in Hretr, Hver.
  (* reranking keeps verified documents, a failed reranking none *)
  apply caught_returns in Hrr as [Hrr| ->];
    [|by apply elem_of_nil in Hdoc].
  apply doc_reranking_returns in Hrr as (q & reranked & Hpre & Hrro & ->).
  cbn [reranking_update rr_reranked_documents] in Hdoc.
  assert (PySection doc ∈ reranked) as Hdoc'.
  { apply elem_of_sections_only.
    by eapply elem_of_prefix; [|apply slice_to_sublist]. }
  clear Hdoc.
  assert (exists doc', f doc = f doc'
                       /\ doc' ∈ mjoin (dv_verified_documents <$> verifications))
    as (doc' & Hf & Hverified).
  { unfold reranked_of in Hrro.
    cbn [with_verified_documents ExpandedRetrievalState.verified_documents] in Hrro.
    destruct (rerank_configured q) eqn:Hconfigured.
    - apply list_elem_of_fmap. by eapply (Hcontract q).
    - subst reranked. apply list_elem_of_fmap in Hdoc' as (doc' & [= <-] & ?).
      by exists doc. }
  (* verification emits its input, a failed verification nothing *)
  apply list_elem_of_join in Hverified as (l & Hl & Hin).
  apply list_elem_of_fmap in Hin as (verification & -> & Hin).
  destruct (Forall2_elem_of_r _ _ _ _ Hver Hin) as (vinput & Hvinput & Hvres).
  apply caught_returns in Hvres as [Hvres| ->];
    [|by apply elem_of_nil in Hl].
  apply (doc_verification_returns _ _ Hvres) in Hl as ->.
  apply verification_kickoff_documents in Hvinput.
  cbn [ExpandedRetrievalState.retrieved_documents] in Hvinput.
  (* retrieval reports the documents of its QueryResults, a failed
     retrieval none *)
  apply list_elem_of_join in Hvinput as (l & Hl & Hin').
  apply list_elem_of_fmap in Hin' as (retrieval & -> & Hin').
  destruct (Forall2_elem_of_r _ _ _ _ Hretr Hin') as (qtr & _ & Hres).
  apply caught_returns in Hres as [Hres| ->];
    [|by apply elem_of_nil in Hl].
  rewrite (doc_retrieval_returns _ _ Hres) in Hl. unfold retrieved_of in Hl.
  apply list_elem_of_join in Hl as (l & Hl & Hqr).
  apply list_elem_of_fmap in Hqr as (query_result & -> & Hqr).
  exists query_result. split.
  - apply list_elem_of_join. exists (dr_expanded_retrieval_results retrieval).
    split; [done|]. apply list_elem_of_fmap. by exists retrieval.
  - rewrite Hf. apply list_elem_of_fmap. eexists. split; [reflexivity|done].
Qed.

(** C10. The verified chunk ids are the keys of the verified documents, one
    per document, in order, duplicates and unscored documents included;
    and an identity key whose every occurrence in the QueryResults has no
    score changes nothing else: the statistics are those of the
    QueryResults without its documents (counts, averages and dismissed
    ids alike), and its chunk key is not among the dismissed ids. *)
Theorem chunk_stats_unscored_key_ignored (verified_documents : list InferenceSection)
    (expanded_retrieval_results : list QueryResult) (key : string * Z) :
  (forall doc, doc ∈ retrieved_of expanded_retrieval_results ->
               identity_key doc = key -> score (center_chunk doc) = None) ->
  let chunk_stats :=
    _calculate_sub_question_retrieval_stats verified_documents expanded_retrieval_results in
  AgentChunkStats.verified_doc_chunk_ids chunk_stats = doc_chunk_id <$> verified_documents
  /\ length (AgentChunkStats.verified_doc_chunk_ids chunk_stats) = length verified_documents
  /\ chunk_stats
     = _calculate_sub_question_retrieval_stats
         verified_documents (without_key key expanded_retrieval_results)
  /\ make_chunk_key key.1 key.2 ∉ AgentChunkStats.dismissed_doc_chunk_ids chunk_stats.
Proof.
  intros Hnone. cbn zeta. split_and!.
  - done.
  - apply length_fmap.
  - unfold _calculate_sub_question_retrieval_stats.
    rewrite !collect_chunk_scores_flat, retrieved_of_without_key.
    by rewrite <- (collect_step_skip_unscored key _ _ Hnone).
  - unfold _calculate_sub_question_retrieval_stats.
    cbn [AgentChunkStats.dismissed_doc_chunk_ids].
    intros Hin. apply chunk_stats_fold_dismissed in Hin as [Hin|Hin].
    { by apply elem_of_nil in Hin. }
    apply (proj2 (collect_chunk_scores_keys _)) in Hin.
    apply list_elem_of_fmap in Hin as (doc & Hkey & Hdoc).
    apply list_elem_of_filter in Hdoc as [Hscore Hdoc].
    assert (identity_key doc = key) as Hid.
    { apply make_chunk_key_inj in Hkey as [? ?]. unfold identity_key.
      destruct key. simpl in *. congruence. }
    unfold has_score in Hscore. by rewrite (Hnone doc Hdoc Hid) in Hscore.
Qed.

(** ** Further properties of the nodes *)

Lemma doc_retrieval_runs (state : RetrievalInput.t) (responses : list ToolResponse)
    (pipeline : option SearchPipeline) :
  let query_to_retrieve := RetrievalInput.query_to_retrieve state in
  PyStr.blank query_to_retrieve = false ->
  run (subgraph_search_tool (RetrievalInput.core state)) query_to_retrieve
  = Returns (responses, pipeline) ->
  truthy_sub_question_id_parses (RetrievalInput.sub_question_id state) = true ->
  forallb response_well_formed responses = true ->
  let retrieved :=
    slice_to AGENT_MAX_QUERY_RETRIEVAL_RESULTS (captured_sections responses) in
  result_of (doc_retrieval state)
  = Returns {| dr_expanded_retrieval_results :=
                 [ {| query := query_to_retrieve;
                      search_results := retrieved;
                      stats :=
                        if AGENT_RETRIEVAL_STATS
                        then get_fit_scores
                               (PySection <$> pre_rerank_docs_of pipeline retrieved)
                               (PySection <$> retrieved)
                        else None |} ];
               dr_retrieved_documents := retrieved |}.
Proof.
  cbn zeta. intros Hblank Hrun Hparse Hwf. apply strip_truthy_iff in Hblank.
  unfold doc_retrieval. rewrite Hblank. cbn [negb].
  rewrite result_of_emit_bind, result_of_call_bind, Hrun.
  by rewrite result_of_bind, doc_retrieval_loop_returns.
Qed.

Lemma doc_retrieval_step_trace (sub_question_id : option string)
    (acc : list InferenceSection) (r : ToolResponse) :
  truthy_sub_question_id_parses sub_question_id = true ->
  response_well_formed r = true ->
  trace_of (doc_retrieval_step sub_question_id acc r)
  = [tool_response_event (retrieval_tag sub_question_id) r].
Proof.
  unfold truthy_sub_question_id_parses, response_well_formed, doc_retrieval_step,
    retrieval_tag, tool_response_event.
  intros Hparse Hwf.
  destruct (decide (id r = SEARCH_RESPONSE_SUMMARY_ID));
    [destruct (response r) eqn:Hr; [|done]|];
    (destruct sub_question_id as [sqid|]; [|done]);
    (destruct (PyStr.truthy sqid); [|done]); simpl in Hparse;
    by destruct (parse_question_id sqid) as [[level question_nr]|].
Qed.

Lemma doc_retrieval_loop_trace (sub_question_id : option string)
    (responses : list ToolResponse) (acc : list InferenceSection) :
  truthy_sub_question_id_parses sub_question_id = true ->
  forallb response_well_formed responses = true ->
  trace_of (foldM (doc_retrieval_step sub_question_id) acc responses)
  = tool_response_event (retrieval_tag sub_question_id) <$> responses.
Proof.
  intros Hparse. revert acc.
  induction responses as [|r responses IH]; intros acc Hwf; [done|].
  cbn [forallb] in Hwf. apply andb_true_iff in Hwf as [Hr Hwf].
  cbn [foldM]. rewrite trace_of_bind, doc_retrieval_step_trace by done.
  rewrite doc_retrieval_step_returns by done. by rewrite IH.
Qed.

Lemma doc_retrieval_step_no_backend (sub_question_id : option string)
    (acc : list InferenceSection) (r : ToolResponse) :
  Forall (fun e => is_backend_call e = false)
         (trace_of (doc_retrieval_step sub_question_id acc r)).
Proof.
  unfold doc_retrieval_step.
  destruct (decide (id r = SEARCH_RESPONSE_SUMMARY_ID));
    [destruct (response r) eqn:Hr|];
    try (destruct sub_question_id as [sqid|]);
    try (destruct (PyStr.truthy sqid));
    try (unfold lift; destruct (parse_question_id sqid) as [[level question_nr]|]);
    cbn; by repeat constructor.
Qed.

Lemma doc_retrieval_loop_no_backend (sub_question_id : option string)
    (responses : list ToolResponse) (acc : list InferenceSection) :
  Forall (fun e => is_backend_call e = false)
         (trace_of (foldM (doc_retrieval_step sub_question_id) acc responses)).
Proof.
  revert acc. induction responses as [|r responses IH]; intros acc; [by constructor|].
  cbn [foldM]. rewrite trace_of_bind. apply Forall_app. split.
  - apply doc_retrieval_step_no_backend.
  - destruct (result_of _); [apply IH|constructor].
Qed.

Lemma capture_step_not_summary (responses : list ToolResponse)
    (acc : list InferenceSection) :
  Forall (fun r => id r <> SEARCH_RESPONSE_SUMMARY_ID) responses ->
  foldl capture_step acc responses = acc.
Proof.
  revert acc. induction responses as [|r responses IH]; intros acc Hno; [done|].
  apply Forall_cons in Hno as [Hr Hno]. cbn [foldl].
  unfold capture_step at 2. rewrite decide_False by done. by apply IH.
Qed.

Lemma not_summary_well_formed (responses : list ToolResponse) :
  Forall (fun r => id r <> SEARCH_RESPONSE_SUMMARY_ID) responses ->
  forallb response_well_formed responses = true.
Proof.
  induction 1 as [|r responses Hr _ IH]; [done|]. cbn [forallb]. rewrite IH.
  unfold response_well_formed. by rewrite decide_False.
Qed.

(** X1. For a query that is not blank the retrieval worker opens a session
    and calls the backend once, first thing, with the query as given and
    backend reranking suppressed; nothing it does afterwards, whatever the
    outcome, is a backend call. *)
Theorem doc_retrieval_backend_call_once (state : RetrievalInput.t) :
  let query_to_retrieve := RetrievalInput.query_to_retrieve state in
  PyStr.blank query_to_retrieve = false ->
  exists rest,
    trace_of (doc_retrieval state)
    = SessionContext :: SearchToolRun query_to_retrieve true :: rest
    /\ Forall (fun e => is_backend_call e = false) rest.
Proof.
  cbn zeta. intros Hblank. apply strip_truthy_iff in Hblank.
  unfold doc_retrieval. rewrite Hblank. cbn [negb].
  rewrite trace_of_emit_bind, trace_of_call_bind.
  eexists. split; [reflexivity|].
  destruct (run _ _) as [[responses pipeline]|]; [|constructor].
  rewrite trace_of_bind. apply Forall_app. split.
  - apply doc_retrieval_loop_no_backend.
  - destruct (result_of _); constructor.
Qed.

(** X2. When the backend run and the response loop succeed, the worker
    re-emits every backend response as one tool-response event, in the
    order yielded, with the id and response unchanged and tagged with the
    parsed sub-question id, or with (0, 0) when the id is absent or
    empty; it emits nothing else after the backend call. *)
Theorem doc_retrieval_events (state : RetrievalInput.t)
    (responses : list ToolResponse) (pipeline : option SearchPipeline) :
  let query_to_retrieve := RetrievalInput.query_to_retrieve state in
  PyStr.blank query_to_retrieve = false ->
  run (subgraph_search_tool (RetrievalInput.core state)) query_to_retrieve
  = Returns (responses, pipeline) ->
  truthy_sub_question_id_parses (RetrievalInput.sub_question_id state) = true ->
  forallb response_well_formed responses = true ->
  trace_of (doc_retrieval state)
  = SessionContext :: SearchToolRun query_to_retrieve true
    :: (tool_response_event (retrieval_tag (RetrievalInput.sub_question_id state))
          <$> responses).
Proof.
  cbn zeta. intros Hblank Hrun Hparse Hwf. apply strip_truthy_iff in Hblank.
  unfold doc_retrieval. rewrite Hblank. cbn [negb].
  rewrite trace_of_emit_bind, trace_of_call_bind, Hrun.
  rewrite trace_of_bind, doc_retrieval_loop_trace by done.
  rewrite doc_retrieval_loop_returns by done.
  cbn [trace_of mret M_ret fst]. by rewrite app_nil_r.
Qed.

(** X3. Of several summary responses the last one counts: the retrieved
    documents are the top sections of the last response carrying the
    summary id, cut to the cap, whatever earlier summaries held. *)
Theorem doc_retrieval_last_summary_wins (state : RetrievalInput.t)
    (before after : list ToolResponse) (r : ToolResponse)
    (top_sections : list InferenceSection) (pipeline : option SearchPipeline) :
  let query_to_retrieve := RetrievalInput.query_to_retrieve state in
  PyStr.blank query_to_retrieve = false ->
  run (subgraph_search_tool (RetrievalInput.core state)) query_to_retrieve
  = Returns (before ++ r :: after, pipeline) ->
  truthy_sub_question_id_parses (RetrievalInput.sub_question_id state) = true ->
  forallb response_well_formed before = true ->
  id r = SEARCH_RESPONSE_SUMMARY_ID ->
  response r = SearchResponseSummary top_sections ->
  Forall (fun r' => id r' <> SEARCH_RESPONSE_SUMMARY_ID) after ->
  exists update,
    result_of (doc_retrieval state) = Returns update
    /\ dr_retrieved_documents update
       = slice_to AGENT_MAX_QUERY_RETRIEVAL_RESULTS top_sections
    /\ search_results <$> dr_expanded_retrieval_results update
       = [slice_to AGENT_MAX_QUERY_RETRIEVAL_RESULTS top_sections].
Proof.
  cbn zeta. intros Hblank Hrun Hparse Hbefore Hid Hr Hafter.
  assert (forallb response_well_formed (before ++ r :: after) = true) as Hwf.
  { rewrite forallb_app, Hbefore. cbn [forallb andb].
    rewrite (not_summary_well_formed after Hafter), andb_true_r.
    unfold response_well_formed. by rewrite decide_True, Hr. }
  assert (captured_sections (before ++ r :: after) = top_sections) as Hcap.
  { unfold captured_sections. rewrite foldl_app. cbn [foldl].
    rewrite capture_step_not_summary by done.
    unfold capture_step. by rewrite decide_True, Hr. }
  eexists. split;
    [exact (doc_retrieval_runs state (before ++ r :: after) pipeline
              Hblank Hrun Hparse Hwf)|].
  cbn [dr_retrieved_documents dr_expanded_retrieval_results]. by rewrite Hcap.
Qed.

(** X4. When the backend yields no summary response (no response at all
    included), a query that is not blank still gets its QueryResult, with
    an empty document list: unlike a blank query, which gets none. *)
Theorem doc_retrieval_without_summary (state : RetrievalInput.t)
    (responses : list ToolResponse) (pipeline : option SearchPipeline) :
  let query_to_retrieve := RetrievalInput.query_to_retrieve state in
  PyStr.blank query_to_retrieve = false ->
  run (subgraph_search_tool (RetrievalInput.core state)) query_to_retrieve
  = Returns (responses, pipeline) ->
  truthy_sub_question_id_parses (RetrievalInput.sub_question_id state) = true ->
  Forall (fun r => id r <> SEARCH_RESPONSE_SUMMARY_ID) responses ->
  exists fit_stats,
    result_of (doc_retrieval state)
    = Returns {| dr_expanded_retrieval_results :=
                   [ {| query := query_to_retrieve;
                        search_results := [];
                        stats := fit_stats |} ];
                 dr_retrieved_documents := [] |}.
Proof.
  cbn zeta. intros Hblank Hrun Hparse Hno.
  pose proof (doc_retrieval_runs state responses pipeline Hblank Hrun Hparse
                (not_summary_well_formed responses Hno)) as H.
  cbn zeta in H. unfold captured_sections in H.
  rewrite capture_step_not_summary in H by done.
  assert (slice_to AGENT_MAX_QUERY_RETRIEVAL_RESULTS (@nil InferenceSection) = []) as Hnil
    by (unfold slice_to; by destruct (0 <=? _); rewrite take_nil).
  rewrite Hnil in H. by eexists.
Qed.

(** X5. Whatever the retrieval worker returns has one of two shapes: no
    QueryResult and no document, for a blank query; or one QueryResult
    for the query exactly as given, whose documents are the retrieved
    documents of the update and number at most the cap when the cap is
    not negative. *)
Theorem doc_retrieval_update_shape (state : RetrievalInput.t)
    (update : DocRetrievalUpdate) :
  let query_to_retrieve := RetrievalInput.query_to_retrieve state in
  result_of (doc_retrieval state) = Returns update ->
  (PyStr.blank query_to_retrieve = true
   /\ dr_expanded_retrieval_results update = []
   /\ dr_retrieved_documents update = [])
  \/ (PyStr.blank query_to_retrieve = false
      /\ exists query_result,
           dr_expanded_retrieval_results update = [query_result]
           /\ query query_result = query_to_retrieve
           /\ search_results query_result = dr_retrieved_documents update
           /\ (0 <= AGENT_MAX_QUERY_RETRIEVAL_RESULTS ->
               Z.of_nat (length (dr_retrieved_documents update))
               <= AGENT_MAX_QUERY_RETRIEVAL_RESULTS)).
Proof.
  cbn zeta. unfold doc_retrieval.
  destruct (PyStr.truthy (PyStr.strip (RetrievalInput.query_to_retrieve state)))
    eqn:Hstrip; cbn [negb].
  - apply strip_truthy_iff in Hstrip. intros H. right. split; [done|].
    apply bind_returns in H as (_ & _ & H).
    apply bind_returns in H as ([responses pipeline] & _ & H).
    apply bind_returns in H as (docs & _ & H). injection H as <-.
    eexists. split; [reflexivity|]. split_and!; [done|done|].
    cbn [dr_retrieved_documents]. apply slice_to_length.
  - apply strip_falsy_iff in Hstrip. intros [= <-]. by left.
Qed.

Lemma split_no_separator (sep : ascii) (s : string) :
  Forall (fun w => ~ PyStr.occurs sep w) (PyStr.split sep s).
Proof. drop_parameters.
  induction s as [|c s IH]; cbn [PyStr.split].
  - constructor; [|constructor]. simpl. tauto.
  - destruct (Ascii.eqb c sep) eqn:Hc.
    + constructor; [|done]. simpl. tauto.
    + pose proof (split_nonempty sep s) as Hne.
      destruct (PyStr.split sep s) as [|w ws]; [done|].
      apply Forall_cons in IH as [Hw Hws]. constructor; [|done].
      simpl. intros [->|Hin]; [|done]. by rewrite Ascii.eqb_refl in Hc.
Qed.

Lemma lower_app (s t : string) :
  PyStr.lower (s +:+ t) = PyStr.lower s +:+ PyStr.lower t.
Proof.
  induction s as [|c s IH]; [done|].
  rewrite app_String. cbn [PyStr.lower]. by rewrite app_String, IH.
Qed.

(** X6. A sub-question id that the parser rejects makes query expansion
    raise the parser's own exception before anything else happens: no
    model call and no event, with or without a chat session id. *)
Theorem expand_queries_parse_error_first (state : ExpandedRetrievalInput.t)
    (sqid : string) (e : exn) :
  ExpandedRetrievalInput.sub_question_id state = Some sqid ->
  parse_question_id sqid = Raises e ->
  expand_queries state = ([], Raises e).
Proof.
  intros Hsqid Hparse. unfold expand_queries. by rewrite Hsqid, Hparse.
Qed.

(** X7. No query returned by query expansion contains a line break, and
    there is at least one; the queries may be empty or blank strings (an
    empty line of the model's text is kept as an empty query). *)
Theorem expand_queries_no_line_breaks (state : ExpandedRetrievalInput.t)
    (update : QueryExpansionUpdate) :
  result_of (expand_queries state) = Returns update ->
  Forall (fun q => ~ PyStr.occurs newline q) (qe_expanded_queries update)
  /\ (0 < length (qe_expanded_queries update))%nat.
Proof.
  unfold expand_queries. intros H.
  apply bind_returns in H as ([level question_nr] & _ & H).
  apply bind_returns in H as (_ & _ & H).
  apply bind_returns in H as (tokens & _ & H).
  apply bind_returns in H as (llm_response_list & _ & H).
  apply bind_returns in H as (llm_response & _ & H).
  injection H as <-. cbn [qe_expanded_queries]. split.
  - apply split_no_separator.
  - pose proof (split_nonempty newline llm_response).
    destruct (PyStr.split newline llm_response); [done|]. simpl. lia.
Qed.

(** X8. The verifier looks for "yes" in any letter case and anywhere in the
    text: a response that contains a word whose lowercase is "yes", with
    whatever text before and after it (a negation included), makes the
    document verified. *)
Theorem doc_verification_any_case_yes (state : DocVerificationInput.t)
    (pre word suf : string) :
  let doc_to_verify := DocVerificationInput.doc_to_verify state in
  invoke (subgraph_fast_llm (DocVerificationInput.core state))
         (VERIFIER_PROMPT (DocVerificationInput.question state)
                          (combined_content doc_to_verify))
  = Returns (ContentStr (pre +:+ word +:+ suf)) ->
  PyStr.lower word = "yes" ->
  result_of (doc_verification state)
  = Returns {| dv_verified_documents := [doc_to_verify] |}.
Proof.
  cbn zeta. intros Hinvoke Hword. unfold doc_verification.
  rewrite result_of_call_bind, Hinvoke, result_of_ret. unfold says_yes.
  assert (PyStr.contains "yes" (PyStr.lower (pre +:+ word +:+ suf)) = true) as ->; [|done].
  apply contains_spec. exists (PyStr.lower pre), (PyStr.lower suf).
  by rewrite !lower_app, Hword.
Qed.

(** X9. The verifier calls the model once, with the verifier prompt filled
    with the question and the combined content of the document, and does
    nothing else; a failure of that call is not caught: the verifier
    raises the model's exception instead of answering "not relevant". *)
Theorem doc_verification_model_failure (state : DocVerificationInput.t) (e : exn) :
  let prompt :=
    VERIFIER_PROMPT (DocVerificationInput.question state)
                    (combined_content (DocVerificationInput.doc_to_verify state)) in
  trace_of (doc_verification state) = [LlmInvoke prompt]
  /\ (invoke (subgraph_fast_llm (DocVerificationInput.core state)) prompt = Raises e ->
      doc_verification state = ([LlmInvoke prompt], Raises e)).
Proof.
  cbn zeta. unfold doc_verification. split.
  - rewrite trace_of_call_bind. by destruct (invoke _ _).
  - by intros ->.
Qed.

(** X10. The verification dispatcher sends one task per retrieved document,
    in order and with duplicates kept; every task carries the question
    of the state, or the query of the original search request when the
    state has none, the sub-question id and core fields of the state, and
    [base_search] false. *)
Theorem verification_kickoff_one_per_document (state : ExpandedRetrievalState.t) :
  DocVerificationInput.doc_to_verify <$> verification_kickoff state
  = ExpandedRetrievalState.retrieved_documents state
  /\ length (verification_kickoff state)
     = length (ExpandedRetrievalState.retrieved_documents state)
  /\ Forall (fun input =>
               DocVerificationInput.question input
               = match ExpandedRetrievalState.question state with
                 | Some q => q
                 | None =>
                     search_request_query
                       (subgraph_config (ExpandedRetrievalState.core state))
                 end
               /\ DocVerificationInput.base_search input = false
               /\ DocVerificationInput.sub_question_id input
                  = ExpandedRetrievalState.sub_question_id state
               /\ DocVerificationInput.core input = ExpandedRetrievalState.core state)
            (verification_kickoff state).
Proof.
  unfold verification_kickoff. split_and!.
  - rewrite <- list_fmap_compose. apply list_fmap_id.
  - apply length_fmap.
  - apply Forall_fmap, Forall_forall. intros doc _. cbn.
    by destruct (ExpandedRetrievalState.question state).
Qed.

Lemma rerank_configured_iff (q : SearchQuery) :
  rerank_configured q = true <->
  exists settings name,
    rerank_settings q = Some settings
    /\ rerank_model_name settings = Some name
    /\ name <> EmptyString /\ 0 < num_rerank settings.
Proof.
  unfold rerank_configured. split.
  - destruct (rerank_settings q) as [settings|]; [|done].
    destruct (rerank_model_name settings) as [name|] eqn:Hname; [|done].
    intros [Hn Hr]%andb_true_iff. exists settings, name.
    split_and!; [done|done| |lia]. by destruct name.
  - intros (settings & name & -> & -> & Hname & Hnum).
    apply andb_true_iff. split; [by destruct name|lia].
Qed.

(** X11. The reranking stage calls the reranker only when the
    preprocessed query has rerank settings with a non-empty model name and
    a positive rerank count, and then once, on the verified documents;
    otherwise it logs "No reranking settings found, using unranked
    documents" and the reranker is not called. *)
Theorem doc_reranking_reranker_invocations (state : ExpandedRetrievalState.t)
    (search_query : SearchQuery) :
  let core := ExpandedRetrievalState.core state in
  let question :=
    default (search_request_query (subgraph_config core))
            (ExpandedRetrievalState.question state) in
  preprocessed state search_query ->
  trace_of (doc_reranking state)
  = SessionContext :: RetrievalPreprocessing question
    :: (if rerank_configured search_query
        then [RerankSections search_query
                (ExpandedRetrievalState.verified_documents state)]
        else [LoggerWarning "No reranking settings found, using unranked documents"])
  /\ (rerank_configured search_query = true <->
      exists settings name,
        rerank_settings search_query = Some settings
        /\ rerank_model_name settings = Some name
        /\ name <> EmptyString /\ 0 < num_rerank settings).
Proof.
  cbn zeta. unfold preprocessed. cbn zeta. intros Hpre.
  split; [|apply rerank_configured_iff].
  unfold doc_reranking. rewrite trace_of_emit_bind, trace_of_call_bind, Hpre.
  rewrite trace_of_bind. destruct (rerank_configured search_query).
  - unfold call at 1. cbn [trace_of result_of fst snd].
    by destruct (rerank_sections _ _).
  - by rewrite trace_of_emit_bind.
Qed.

Lemma slice_to_all {A : Type} (n : Z) (l : list A) :
  Z.of_nat (length l) <= n -> slice_to n l = l.
Proof.
  intros Hn. unfold slice_to. rewrite (proj2 (Z.leb_le 0 n)) by lia.
  apply take_ge. lia.
Qed.

(** X12. When the section entries of the reranker's list are a reordering
    of the verified documents and the cap is at least their number, the
    stage returns exactly those sections in the reranker's order: a
    reordering of the verified documents, none lost and none added,
    entries of another type dropped. *)
Theorem doc_reranking_keeps_all_when_permuted (state : ExpandedRetrievalState.t)
    (search_query : SearchQuery) (reranked : list pyobj) :
  let verified_documents := ExpandedRetrievalState.verified_documents state in
  preprocessed state search_query ->
  reranked_of state search_query reranked ->
  sections_only reranked ≡ₚ verified_documents ->
  Z.of_nat (length verified_documents) <= AGENT_RERANKING_MAX_QUERY_RETRIEVAL_RESULTS ->
  exists update,
    result_of (doc_reranking state) = Returns update
    /\ rr_reranked_documents update = sections_only reranked
    /\ rr_reranked_documents update ≡ₚ verified_documents.
Proof.
  cbn zeta. intros Hpre Hrr Hperm Hcap. exists (reranking_update state reranked).
  split; [by eapply doc_reranking_run|]. cbn [reranking_update rr_reranked_documents].
  rewrite slice_to_all; [done|]. by rewrite (Permutation_length Hperm).
Qed.

Lemma chunk_stats_fold_partition (verified_ids : list string) (items : chunk_scores_t)
    (raw : raw_chunk_stats) :
  let raw' := foldl (chunk_stats_step verified_ids) raw items in
  raw_dismissed raw'
  = raw_dismissed raw ++ filter (fun k => k ∉ verified_ids) items.*1
  /\ raw_rejected_count raw'
     = (raw_rejected_count raw
        + length (filter (fun k => k ∉ verified_ids) items.*1))%nat
  /\ raw_verified_count raw'
     = (raw_verified_count raw
        + length (filter (fun k => k ∈ verified_ids) items.*1))%nat.
Proof.
  cbn zeta. revert raw. induction items as [|[k vs] items IH]; intros raw.
  - cbn. rewrite app_nil_r. split_and!; [done|lia|lia].
  - cbn [foldl]. destruct (IH (chunk_stats_step verified_ids raw (k, vs)))
      as (Hd & Hr & Hv).
    rewrite Hd, Hr, Hv, fmap_cons, !filter_cons. cbn [fst chunk_stats_step].
    destruct (decide (k ∈ verified_ids)) as [Hin|Hin].
    + rewrite decide_False by (intros Hn; by apply Hn).
      cbn [raw_dismissed raw_rejected_count raw_verified_count length]. split_and!; [done|lia|lia].
    + rewrite decide_True by done.
      cbn [raw_dismissed raw_rejected_count raw_verified_count length].
      rewrite <- app_assoc. split_and!; [done|lia|lia].
Qed.

Lemma chunk_stats_fold_rejected_none (verified_ids : list string)
    (items : chunk_scores_t) (raw : raw_chunk_stats) :
  (raw_rejected_scores raw = None <-> raw_rejected_count raw = 0%nat) ->
  let raw' := foldl (chunk_stats_step verified_ids) raw items in
  raw_rejected_scores raw' = None <-> raw_rejected_count raw' = 0%nat.
Proof.
  revert raw. induction items as [|[k vs] items IH]; intros raw Hraw; [done|].
  cbn [foldl]. apply IH. cbn [chunk_stats_step]. case_decide; cbn; [done|].
  unfold add_default. split; [done|lia].
Qed.

Lemma chunk_stats_step_same_set (ids1 ids2 : list string) (raw : raw_chunk_stats)
    (item : string * list (option float)) :
  (forall k, k ∈ ids1 <-> k ∈ ids2) ->
  chunk_stats_step ids1 raw item = chunk_stats_step ids2 raw item.
Proof.
  intros Hids. destruct item as [k vs]. cbn [chunk_stats_step].
  destruct (decide (k ∈ ids1)) as [H1|H1], (decide (k ∈ ids2)) as [H2|H2];
    [done| | |done].
  - by apply Hids in H1.
  - by apply Hids in H2.
Qed.

Lemma chunk_stats_fold_same_set (ids1 ids2 : list string) (items : chunk_scores_t)
    (raw : raw_chunk_stats) :
  (forall k, k ∈ ids1 <-> k ∈ ids2) ->
  foldl (chunk_stats_step ids1) raw items = foldl (chunk_stats_step ids2) raw items.
Proof.
  intros Hids. revert raw. induction items as [|item items IH]; intros raw; [done|].
  cbn [foldl]. by rewrite (chunk_stats_step_same_set ids1 ids2), IH.
Qed.

Lemma chunk_scores_get_append (k k' : string) (v : option float) (d : chunk_scores_t) :
  chunk_scores_get k (chunk_scores_append k' v d)
  = if decide (k = k') then chunk_scores_get k d ++ [v] else chunk_scores_get k d.
Proof.
  induction d as [|[k'' vs] d IH].
  - cbn [chunk_scores_append chunk_scores_get]. by destruct (decide (k = k')).
  - cbn [chunk_scores_append]. destruct (decide (k' = k'')) as [->|Hk'].
    + cbn [chunk_scores_get]. destruct (decide (k = k'')); done.
    + cbn [chunk_scores_get]. rewrite IH.
      destruct (decide (k = k'')) as [->|Hk]; [|done].
      by rewrite decide_False.
Qed.

Lemma chunk_scores_get_fold (k : string) (docs : list InferenceSection)
    (acc : chunk_scores_t) :
  chunk_scores_get k (foldl collect_step acc docs)
  = chunk_scores_get k acc
    ++ ((fun doc => score (center_chunk doc))
          <$> filter (fun doc => has_score doc = true /\ doc_chunk_id doc = k) docs).
Proof.
  revert acc. induction docs as [|doc docs IH]; intros acc.
  - cbn [foldl]. by rewrite filter_nil, fmap_nil, app_nil_r.
  - cbn [foldl]. rewrite IH, filter_cons. unfold collect_step.
    destruct (score (center_chunk doc)) as [s|] eqn:Hs.
    + rewrite chunk_scores_get_append.
      destruct (decide (k = doc_chunk_id doc)) as [->|Hk].
      * rewrite decide_True by (split; [unfold has_score; by rewrite Hs|done]).
        rewrite fmap_cons, Hs, <- app_assoc. done.
      * rewrite decide_False; [done|]. intros [_ ?]. by apply Hk.
    + rewrite decide_False; [done|]. intros [H _].
      unfold has_score in H. by rewrite Hs in H.
Qed.

Lemma chunk_scores_get_elem (k : string) (vs : list (option float))
    (d : chunk_scores_t) :
  NoDup d.*1 -> (k, vs) ∈ d -> chunk_scores_get k d = vs.
Proof.
  induction d as [|[k' vs'] d IH]; intros Hnd Hin.
  - by apply elem_of_nil in Hin.
  - rewrite fmap_cons in Hnd. apply NoDup_cons in Hnd as [Hk' Hnd].
    cbn [chunk_scores_get]. apply elem_of_cons in Hin as [[= -> ->]|Hin].
    + by rewrite decide_True.
    + destruct (decide (k = k')) as [->|Hk]; [|by apply IH].
      destruct Hk'. apply list_elem_of_fmap. by exists (k', vs).
Qed.

Lemma omap_score_filter (k : string) (docs : list InferenceSection) :
  omap (fun s => s)
       ((fun doc => score (center_chunk doc))
          <$> filter (fun doc => has_score doc = true /\ doc_chunk_id doc = k) docs)
  = omap (fun doc => score (center_chunk doc))
         (filter (fun doc => doc_chunk_id doc = k) docs).
Proof.
  induction docs as [|doc docs IH]; [done|].
  rewrite !filter_cons.
  destruct (decide (doc_chunk_id doc = k)) as [Hk|Hk].
  - destruct (score (center_chunk doc)) as [s|] eqn:Hs.
    + rewrite decide_True by (split; [unfold has_score; by rewrite Hs|done]).
      rewrite fmap_cons. cbn [omap list_omap]. rewrite Hs. cbn. by rewrite <- IH.
    + rewrite decide_False
        by (intros [H _]; unfold has_score in H; by rewrite Hs in H).
      cbn [omap list_omap]. by rewrite Hs.
  - rewrite decide_False by (by intros [_ ?]). done.
Qed.

Lemma collect_step_unscored (docs : list InferenceSection) (acc : chunk_scores_t) :
  (forall doc, doc ∈ docs -> score (center_chunk doc) = None) ->
  foldl collect_step acc docs = acc.
Proof.
  revert acc. induction docs as [|doc docs IH]; intros acc Hnone; [done|].
  cbn [foldl]. unfold collect_step at 2.
  rewrite (Hnone doc) by (apply elem_of_cons; by left).
  apply IH. intros d Hd. apply Hnone, elem_of_cons. by right.
Qed.

(** X13. The rejected average is None exactly when no chunk is rejected (so
    the division that computes it never has a zero count), and the
    verified average is 0.0 when no chunk is verified. *)
Theorem chunk_stats_rejected_average_none_iff
    (verified_documents : list InferenceSection)
    (expanded_retrieval_results : list QueryResult) :
  let chunk_stats :=
    _calculate_sub_question_retrieval_stats verified_documents expanded_retrieval_results in
  (AgentChunkStats.rejected_avg_scores chunk_stats = None
   <-> AgentChunkStats.rejected_count chunk_stats = 0%nat)
  /\ (AgentChunkStats.verified_count chunk_stats = 0%nat ->
      AgentChunkStats.verified_avg_scores chunk_stats = 0%float).
Proof.
  cbn zeta. unfold _calculate_sub_question_retrieval_stats.
  cbn [AgentChunkStats.rejected_avg_scores AgentChunkStats.rejected_count
       AgentChunkStats.verified_count AgentChunkStats.verified_avg_scores].
  split.
  - rewrite <- (chunk_stats_fold_rejected_none
                  (doc_chunk_id <$> verified_documents)
                  (collect_chunk_scores expanded_retrieval_results)
                  raw_chunk_stats_init) by done.
    by destruct (raw_rejected_scores _).
  - intros Hzero. by rewrite decide_True.
Qed.

(** X14. The dismissed chunk ids are the chunk keys that occur with a score
    in some QueryResult and belong to no verified document, each listed
    once, and the rejected count is their number. *)
Theorem chunk_stats_dismissed (verified_documents : list InferenceSection)
    (expanded_retrieval_results : list QueryResult) :
  let chunk_stats :=
    _calculate_sub_question_retrieval_stats verified_documents expanded_retrieval_results in
  NoDup (AgentChunkStats.dismissed_doc_chunk_ids chunk_stats)
  /\ length (AgentChunkStats.dismissed_doc_chunk_ids chunk_stats)
     = AgentChunkStats.rejected_count chunk_stats
  /\ forall k,
       k ∈ AgentChunkStats.dismissed_doc_chunk_ids chunk_stats
       <-> k ∈ scored_keys expanded_retrieval_results
           /\ k ∉ AgentChunkStats.verified_doc_chunk_ids chunk_stats.
Proof. drop_parameters.
  cbn zeta. unfold _calculate_sub_question_retrieval_stats.
  cbn [AgentChunkStats.dismissed_doc_chunk_ids AgentChunkStats.rejected_count
       AgentChunkStats.verified_doc_chunk_ids].
  destruct (chunk_stats_fold_partition
              (doc_chunk_id <$> verified_documents)
              (collect_chunk_scores expanded_retrieval_results) raw_chunk_stats_init)
    as (Hd & Hr & _).
  destruct (collect_chunk_scores_keys expanded_retrieval_results) as [Hnd Hel].
  rewrite Hd, Hr. cbn [raw_chunk_stats_init raw_dismissed raw_rejected_count app].
  split_and!.
  - by apply NoDup_filter.
  - done.
  - intros k. rewrite list_elem_of_filter, Hel. unfold scored_keys. tauto.
Qed.

(** X15. The verified count is the number of distinct chunk keys that occur
    with a score in some QueryResult and belong to a verified document;
    it is at most the number of verified documents, and smaller when a
    verified document was retrieved without a score or appears twice. *)
Theorem chunk_stats_verified_count (verified_documents : list InferenceSection)
    (expanded_retrieval_results : list QueryResult) :
  let chunk_stats :=
    _calculate_sub_question_retrieval_stats verified_documents expanded_retrieval_results in
  AgentChunkStats.verified_count chunk_stats
  = length (remove_dups
              (filter (fun k => k ∈ doc_chunk_id <$> verified_documents)
                      (scored_keys expanded_retrieval_results)))
  /\ (AgentChunkStats.verified_count chunk_stats <= length verified_documents)%nat.
Proof. drop_parameters.
  cbn zeta. unfold _calculate_sub_question_retrieval_stats.
  cbn [AgentChunkStats.verified_count].
  destruct (chunk_stats_fold_partition
              (doc_chunk_id <$> verified_documents)
              (collect_chunk_scores expanded_retrieval_results) raw_chunk_stats_init)
    as (_ & _ & Hv).
  destruct (collect_chunk_scores_keys expanded_retrieval_results) as [Hnd Hel].
  rewrite Hv. cbn [raw_chunk_stats_init raw_verified_count Nat.add].
  assert (NoDup (filter (fun k => k ∈ doc_chunk_id <$> verified_documents)
                        (collect_chunk_scores expanded_retrieval_results).*1)) as Hndf
    by (by apply NoDup_filter).
  split.
  - apply NoDup_length_remove_dups; [done|].
    intros k. rewrite !list_elem_of_filter, Hel. unfold scored_keys. tauto.
  - rewrite <- (length_fmap doc_chunk_id verified_documents).
    apply submseteq_length, NoDup_submseteq; [done|].
    by intros k [? _]%list_elem_of_filter.
Qed.

(** X16. The counts, the averages and the dismissed ids depend on the
    verified documents only through the set of their chunk keys: two
    verified lists with the same keys (in another order, with
    duplicates, with other scores or contents) give the same values. *)
Theorem chunk_stats_verified_set_only (verified1 verified2 : list InferenceSection)
    (expanded_retrieval_results : list QueryResult) :
  (forall k, k ∈ doc_chunk_id <$> verified1 <-> k ∈ doc_chunk_id <$> verified2) ->
  let stats1 :=
    _calculate_sub_question_retrieval_stats verified1 expanded_retrieval_results in
  let stats2 :=
    _calculate_sub_question_retrieval_stats verified2 expanded_retrieval_results in
  AgentChunkStats.verified_count stats1 = AgentChunkStats.verified_count stats2
  /\ AgentChunkStats.rejected_count stats1 = AgentChunkStats.rejected_count stats2
  /\ AgentChunkStats.verified_avg_scores stats1 = AgentChunkStats.verified_avg_scores stats2
  /\ AgentChunkStats.rejected_avg_scores stats1 = AgentChunkStats.rejected_avg_scores stats2
  /\ AgentChunkStats.dismissed_doc_chunk_ids stats1
     = AgentChunkStats.dismissed_doc_chunk_ids stats2.
Proof.
  intros Hset. cbn zeta. unfold _calculate_sub_question_retrieval_stats.
  cbn [AgentChunkStats.verified_count AgentChunkStats.rejected_count
       AgentChunkStats.verified_avg_scores AgentChunkStats.rejected_avg_scores
       AgentChunkStats.dismissed_doc_chunk_ids].
  by rewrite (chunk_stats_fold_same_set _ _ _ _ Hset).
Qed.

(** X17. Every list of samples handed to the mean holds the scores of the
    documents retrieved under that chunk key, one per scored retrieval,
    in the order of retrieval across the queries; it is never empty. *)
Theorem chunk_scores_samples (expanded_retrieval_results : list QueryResult)
    (k : string) (chunk_data : list (option float)) :
  (k, chunk_data) ∈ collect_chunk_scores expanded_retrieval_results ->
  valid_chunk_scores chunk_data
  = omap (fun doc => score (center_chunk doc))
         (filter (fun doc => doc_chunk_id doc = k)
                 (retrieved_of expanded_retrieval_results))
  /\ valid_chunk_scores chunk_data <> [].
Proof.
  intros Hin.
  destruct (collect_chunk_scores_keys expanded_retrieval_results) as [Hnd Hel].
  assert (valid_chunk_scores chunk_data
          = omap (fun doc => score (center_chunk doc))
                 (filter (fun doc => doc_chunk_id doc = k)
                         (retrieved_of expanded_retrieval_results))) as Hvalid.
  { rewrite <- (chunk_scores_get_elem k chunk_data _ Hnd Hin).
    rewrite collect_chunk_scores_flat, chunk_scores_get_fold.
    cbn [chunk_scores_get app]. apply omap_score_filter. }
  split; [done|]. rewrite Hvalid.
  assert (k ∈ (collect_chunk_scores expanded_retrieval_results).*1) as Hk
    by (apply list_elem_of_fmap; by exists (k, chunk_data)).
  apply Hel in Hk. apply list_elem_of_fmap in Hk as (doc & -> & Hdoc).
  apply list_elem_of_filter in Hdoc as [Hscore Hdoc].
  unfold has_score in Hscore.
  destruct (score (center_chunk doc)) as [s|] eqn:Hs; [|done].
  intros Hnil.
  assert (s ∈ omap (fun d => score (center_chunk d))
                   (filter (fun d => doc_chunk_id d = doc_chunk_id doc)
                           (retrieved_of expanded_retrieval_results))) as Hs'.
  { apply list_elem_of_omap. exists doc. split; [|done].
    by apply list_elem_of_filter. }
  rewrite Hnil in Hs'. by apply elem_of_nil in Hs'.
Qed.

(** X18. When no retrieved document has a score (no QueryResult or no
    document included), the statistics count nothing: both counts 0,
    verified average 0.0, rejected average None, no dismissed id, while
    the verified chunk ids still list the verified documents. *)
Theorem chunk_stats_no_scores (verified_documents : list InferenceSection)
    (expanded_retrieval_results : list QueryResult) :
  (forall doc, doc ∈ retrieved_of expanded_retrieval_results ->
               score (center_chunk doc) = None) ->
  _calculate_sub_question_retrieval_stats verified_documents expanded_retrieval_results
  = {| AgentChunkStats.verified_count := 0;
       AgentChunkStats.verified_avg_scores := 0%float;
       AgentChunkStats.rejected_count := 0;
       AgentChunkStats.rejected_avg_scores := None;
       AgentChunkStats.verified_doc_chunk_ids := doc_chunk_id <$> verified_documents;
       AgentChunkStats.dismissed_doc_chunk_ids := [] |}.
Proof.
  intros Hnone. unfold _calculate_sub_question_retrieval_stats.
  by rewrite collect_chunk_scores_flat, collect_step_unscored.
Qed.

(** X19. The chunk key of a document identifies its (document_id, chunk_id)
    pair: two documents have the same key exactly when they have the same
    document id and the same chunk id, also for document ids that contain
    underscores or digits. *)
Theorem chunk_key_no_collision (doc1 doc2 : InferenceSection) :
  doc_chunk_id doc1 = doc_chunk_id doc2
  <-> document_id (center_chunk doc1) = document_id (center_chunk doc2)
      /\ chunk_id (center_chunk doc1) = chunk_id (center_chunk doc2).
Proof.
  unfold doc_chunk_id. split.
  - apply make_chunk_key_inj.
  - by intros [-> ->].
Qed.

End Nodes.

(** ** The properties on sample inputs *)

(** C1: a QueryResult whose only document has no score: one identity key is
    observed, and no chunk is counted. *)
Lemma unscored_key_is_not_counted :
  (AgentChunkStats.verified_count
     (_calculate_sub_question_retrieval_stats Sample.mean [] [Sample.unscored_result])
   + AgentChunkStats.rejected_count
       (_calculate_sub_question_retrieval_stats Sample.mean [] [Sample.unscored_result])
   = 0)%nat
  /\ length (remove_dups (identity_key <$> retrieved_of [Sample.unscored_result])) = 1%nat
  /\ (AgentChunkStats.verified_count
        (_calculate_sub_question_retrieval_stats Sample.mean [] [Sample.unscored_result])
      + AgentChunkStats.rejected_count
          (_calculate_sub_question_retrieval_stats Sample.mean [] [Sample.unscored_result]))%nat
     <> length (remove_dups (identity_key <$> retrieved_of [Sample.unscored_result])).
Proof. split_and!; [reflexivity|reflexivity|]. vm_compute. discriminate. Qed.

(** C2: the update returned for a blank query holds no QueryResult at all,
    hence no empty QueryResult for that query. *)
Lemma blank_query_has_no_query_result :
  PyStr.blank (RetrievalInput.query_to_retrieve Sample.blank_retrieval_input) = true
  /\ ~ exists update query_result,
         result_of (doc_retrieval 10 true Sample.summary_id Sample.parse_question_id
                                  Sample.get_fit_scores Sample.blank_retrieval_input)
         = Returns update
         /\ query_result ∈ dr_expanded_retrieval_results update.
Proof.
  split; [reflexivity|]. intros (update & query_result & Hrun & Hin).
  injection Hrun as <-. by apply elem_of_nil in Hin.
Qed.

Lemma doc_retrieval_blank_query_witness :
  doc_retrieval 10 true Sample.summary_id Sample.parse_question_id
                Sample.get_fit_scores Sample.blank_retrieval_input
  = ([LoggerWarning "Empty query, skipping retrieval"],
     Returns {| dr_expanded_retrieval_results := []; dr_retrieved_documents := [] |})
  /\ Forall (fun e => is_backend_call e = false)
            (trace_of (doc_retrieval 10 true Sample.summary_id Sample.parse_question_id
                                     Sample.get_fit_scores Sample.blank_retrieval_input)).
Proof.
  apply (doc_retrieval_blank_query 10 true Sample.summary_id Sample.parse_question_id
                                   Sample.get_fit_scores Sample.blank_retrieval_input).
  reflexivity.
Defined.

(** C3: a reranker that adds a section it was not given gets it into the
    final list, which is then no subset of the verified documents. *)
Lemma reranker_output_is_not_checked :
  exists update,
    result_of (doc_reranking 10 false Sample.get_fit_scores Sample.preprocessing_rerank
                             Sample.adding_reranker Sample.verified_state)
    = Returns update
    /\ (Sample.invented ∈ rr_reranked_documents update)
    /\ (Sample.invented ∉ ExpandedRetrievalState.verified_documents Sample.verified_state)
    /\ ~ (forall doc, doc ∈ rr_reranked_documents update ->
                      doc ∈ ExpandedRetrievalState.verified_documents Sample.verified_state).
Proof.
  assert (Sample.invented
          ∉ ExpandedRetrievalState.verified_documents Sample.verified_state) as Hnot.
  { cbn. intros H. repeat (apply elem_of_cons in H as [H|H]; [discriminate H|]).
    by apply elem_of_nil in H. }
  eexists. split; [reflexivity|]. split_and!.
  - apply list_elem_of_here.
  - exact Hnot.
  - intros Hall. apply Hnot, Hall, list_elem_of_here.
Qed.

(** C3 on the reversing reranker with a cap of one. *)
Lemma doc_reranking_documents_witness :
  exists update,
    result_of (doc_reranking 1 false Sample.get_fit_scores Sample.preprocessing_rerank
                             Sample.reversing_reranker Sample.verified_state)
    = Returns update
    /\ rr_reranked_documents update
       = slice_to 1 (sections_only (PySection <$> [Sample.refund_form; Sample.refund_terms]))
    /\ (0 <= 1 -> Z.of_nat (length (rr_reranked_documents update)) <= 1)
    /\ (rerank_configured (Sample.rerank_query "What is the refund policy?") = false ->
        rr_reranked_documents update
        `prefix_of` ExpandedRetrievalState.verified_documents Sample.verified_state)
    /\ ((forall doc,
           PySection doc ∈ PySection <$> [Sample.refund_form; Sample.refund_terms] ->
           doc ∈ ExpandedRetrievalState.verified_documents Sample.verified_state) ->
        forall doc, doc ∈ rr_reranked_documents update ->
                    doc ∈ ExpandedRetrievalState.verified_documents Sample.verified_state).
Proof.
  apply (doc_reranking_documents
           1 false Sample.get_fit_scores Sample.preprocessing_rerank
           Sample.reversing_reranker Sample.verified_state
           (Sample.rerank_query "What is the refund policy?")
           (PySection <$> [Sample.refund_form; Sample.refund_terms])).
  - reflexivity.
  - reflexivity.
Defined.

(** C4 on the sample model, which answers "Yes, it is relevant." for the
    refund terms. *)
Lemma doc_verification_yes_iff_witness :
  exists verified_documents,
    result_of (doc_verification Sample.verifier_prompt Sample.verification_input)
    = Returns {| dv_verified_documents := verified_documents |}
    /\ (verified_documents = [Sample.refund_terms] \/ verified_documents = [])
    /\ (verified_documents = [Sample.refund_terms] <->
        exists s pre suf,
          ContentStr "Yes, it is relevant." = ContentStr s
          /\ PyStr.lower s = pre +:+ "yes" +:+ suf).
Proof.
  apply (doc_verification_yes_iff Sample.verifier_prompt Sample.verification_input
                                  (ContentStr "Yes, it is relevant.")).
  reflexivity.
Defined.

(** C5: a question of two spaces is rewritten as it is; the query of the
    original search request is not used for the prompt and is not among
    the expanded queries. *)
Lemma blank_question_is_not_replaced :
  PyStr.blank "  " = true
  /\ ExpandedRetrievalInput.question Sample.blank_question_input = Some "  "
  /\ result_of (expand_queries Sample.rewrite_prompt Sample.parse_question_id
                               Sample.blank_question_input)
     = Returns {| qe_expanded_queries := ["refund policy"; "return policy"] |}
  /\ (LlmStream (Sample.rewrite_prompt "  ")
      ∈ trace_of (expand_queries Sample.rewrite_prompt Sample.parse_question_id
                                 Sample.blank_question_input))
  /\ (LlmStream (Sample.rewrite_prompt "What is the refund policy?")
      ∉ trace_of (expand_queries Sample.rewrite_prompt Sample.parse_question_id
                                 Sample.blank_question_input))
  /\ ("What is the refund policy?" ∉ ["refund policy"; "return policy"]).
Proof.
  split_and!; [reflexivity|reflexivity|reflexivity| | |].
  - cbn. apply list_elem_of_here.
  - cbn. intros H. repeat (apply elem_of_cons in H as [H|H]; [discriminate H|]).
    by apply elem_of_nil in H.
  - intros H. repeat (apply elem_of_cons in H as [H|H]; [discriminate H|]).
    by apply elem_of_nil in H.
Qed.

(** C5 on the sample input, which supplies no question. *)
Lemma expand_queries_nonempty_witness :
  exists expanded_queries,
    result_of (expand_queries Sample.rewrite_prompt Sample.parse_question_id
                              Sample.expansion_input)
    = Returns {| qe_expanded_queries := expanded_queries |}
    /\ expanded_queries
       = PyStr.split newline
           (PyStr.join EmptyString
                       ["refund policy"; String newline EmptyString; "return policy"])
    /\ expanded_queries <> []
    /\ PyStr.join (String newline EmptyString) expanded_queries
       = PyStr.join EmptyString
                    ["refund policy"; String newline EmptyString; "return policy"]
    /\ LlmStream (Sample.rewrite_prompt "What is the refund policy?")
       ∈ trace_of (expand_queries Sample.rewrite_prompt Sample.parse_question_id
                                  Sample.expansion_input).
Proof.
  apply (expand_queries_nonempty
           Sample.rewrite_prompt Sample.parse_question_id Sample.expansion_input
           "session-1" ["refund policy"; String newline EmptyString; "return policy"]).
  - reflexivity.
  - reflexivity.
  - reflexivity.
  - discriminate.
Defined.

(** C6: with a chat session id and a sub-question id that does not parse,
    query expansion raises before the model is invoked. *)
Lemma malformed_sub_question_id_raises_first :
  chat_session_id (subgraph_config (ExpandedRetrievalInput.core Sample.malformed_id_input))
  = Some "session-1"
  /\ expand_queries Sample.rewrite_prompt Sample.parse_question_id
                    Sample.malformed_id_input
     = ([], Raises (ValueError "not enough values to unpack (expected 2, got 1)"))
  /\ filter (fun e => is_model_call e = true)
            (trace_of (expand_queries Sample.rewrite_prompt Sample.parse_question_id
                                      Sample.malformed_id_input))
     = [].
Proof. split_and!; reflexivity. Qed.

(** C7 on the sample search tool, which exposes four pre-rerank
    candidates, with a cap of two results. *)
Lemma doc_retrieval_fit_stats_witness :
  exists fit_stats,
    result_of (doc_retrieval 2 true Sample.summary_id Sample.parse_question_id
                             Sample.get_fit_scores Sample.retrieval_input)
    = Returns {| dr_expanded_retrieval_results :=
                   [ {| query := "refund policy";
                        search_results := [Sample.refund_terms; Sample.shipping];
                        stats := fit_stats |} ];
                 dr_retrieved_documents := [Sample.refund_terms; Sample.shipping] |}
    /\ fit_stats
       = Sample.get_fit_scores
           (PySection <$> [Sample.shipping; Sample.refund_terms; Sample.unscored;
                           Sample.refund_form])
           (PySection <$> [Sample.refund_terms; Sample.shipping]).
Proof.
  destruct (doc_retrieval_fit_stats
              2 true Sample.summary_id Sample.parse_question_id Sample.get_fit_scores
              Sample.retrieval_input
              [ {| id := "section_relevance"; response := OtherResponse "[]" |};
                {| id := Sample.summary_id;
                   response := SearchResponseSummary
                                 [Sample.refund_terms; Sample.shipping; Sample.unscored] |} ]
              (Some {| _retrieved_sections :=
                         Some [Sample.shipping; Sample.refund_terms; Sample.unscored;
                               Sample.refund_form] |})
              eq_refl eq_refl eq_refl eq_refl)
    as (fit_stats & Hrun & _ & Hcandidates & _).
  exists fit_stats. split; [exact Hrun|]. exact (Hcandidates eq_refl _ _ eq_refl).
Defined.

(** C8 on the sample state, reranking statistics disabled. *)
Lemma doc_reranking_stats_disabled_witness :
  (forall update,
     result_of (doc_reranking 10 false Sample.get_fit_scores Sample.preprocessing_rerank
                              Sample.reversing_reranker Sample.verified_state)
     = Returns update ->
     rr_sub_question_retrieval_stats update
     = Some {| fit_score_lift := 0%float; rerank_effect := 0%float; fit_scores := ∅ |})
  /\ (forall search_query reranked,
        preprocessed Sample.preprocessing_rerank Sample.verified_state search_query ->
        reranked_of Sample.reversing_reranker Sample.verified_state search_query reranked ->
        exists update,
          result_of (doc_reranking 10 false Sample.get_fit_scores
                                   Sample.preprocessing_rerank Sample.reversing_reranker
                                   Sample.verified_state)
          = Returns update
          /\ rr_sub_question_retrieval_stats update = Some zero_fit_stats).
Proof.
  apply (doc_reranking_stats_disabled
           10 false Sample.get_fit_scores Sample.preprocessing_rerank
           Sample.reversing_reranker Sample.verified_state).
  reflexivity.
Defined.

Lemma rescoring_reranker_keeps_identities (search_query : SearchQuery)
    (docs : list InferenceSection) (reranked : list pyobj) (doc : InferenceSection) :
  Sample.rescoring_reranker search_query docs = Returns reranked ->
  PySection doc ∈ reranked -> identity_key doc ∈ identity_key <$> docs.
Proof.
  unfold Sample.rescoring_reranker. intros [= <-] Hin.
  apply list_elem_of_fmap in Hin as (doc' & [= ->] & Hin).
  apply list_elem_of_fmap in Hin as (given & -> & Hin).
  apply list_elem_of_fmap. exists given. split; [done|by apply elem_of_reverse].
Qed.

(** C9: through the graph, a section added by the reranker reaches the
    final bundle although no QueryResult retrieved it, nor a document of
    its identity. *)
Lemma reranker_document_reaches_bundle :
  exists update,
    result_of (expanded_retrieval_graph
                 10 5 true true Sample.summary_id Sample.rewrite_prompt
                 Sample.verifier_prompt Sample.parse_question_id Sample.get_fit_scores
                 Sample.preprocessing_rerank Sample.adding_reranker Sample.mean
                 Sample.expansion_input)
    = Returns update
    /\ (Sample.invented ∈ all_documents (expanded_retrieval_result update))
    /\ (~ exists query_result,
           query_result ∈ expanded_queries_results (expanded_retrieval_result update)
           /\ Sample.invented ∈ search_results query_result)
    /\ (~ exists query_result,
           query_result ∈ expanded_queries_results (expanded_retrieval_result update)
           /\ identity_key Sample.invented
              ∈ identity_key <$> search_results query_result).
Proof.
  eexists. split; [vm_compute; reflexivity|]. split; [|split].
  - cbn. apply list_elem_of_here.
  - intros (query_result & Hqr & Hin). cbn in Hqr.
    repeat (apply elem_of_cons in Hqr as [->|Hqr]);
      [| |by apply elem_of_nil in Hqr];
      cbn in Hin;
      repeat (apply elem_of_cons in Hin as [Hin|Hin]; [discriminate Hin|]);
      by apply elem_of_nil in Hin.
  - intros (query_result & Hqr & Hin). cbn in Hqr.
    repeat (apply elem_of_cons in Hqr as [->|Hqr]);
      [| |by apply elem_of_nil in Hqr];
      cbn in Hin;
      repeat (apply elem_of_cons in Hin as [Hin|Hin]; [discriminate Hin|]);
      by apply elem_of_nil in Hin.
Qed.

(** C9 on the sample graph. With the reranker that writes its scores, the
    documents of the bundle are not the retrieved records, and each has the
    identity of a retrieved document. With no reranker configured, the
    documents of the bundle are retrieved records, whatever the reranker
    would have added. *)
Lemma no_document_fabricated_witness :
  (exists update,
     result_of (expanded_retrieval_graph
                  10 5 true true Sample.summary_id Sample.rewrite_prompt
                  Sample.verifier_prompt Sample.parse_question_id Sample.get_fit_scores
                  Sample.preprocessing_rerank Sample.rescoring_reranker Sample.mean
                  Sample.expansion_input)
     = Returns update
     /\ all_documents (expanded_retrieval_result update)
        = [Sample.section_of "policy" 0 (Some 2%float) "Refunds are made within 30 days.";
           Sample.section_of "policy" 0 (Some 2%float) "Refunds are made within 30 days."]
     /\ forall doc,
          doc ∈ all_documents (expanded_retrieval_result update) ->
          exists query_result,
            query_result ∈ expanded_queries_results (expanded_retrieval_result update)
            /\ identity_key doc ∈ identity_key <$> search_results query_result)
  /\ (exists update,
        result_of (expanded_retrieval_graph
                     10 5 true true Sample.summary_id Sample.rewrite_prompt
                     Sample.verifier_prompt Sample.parse_question_id Sample.get_fit_scores
                     Sample.preprocessing_plain Sample.adding_reranker Sample.mean
                     Sample.expansion_input)
        = Returns update
        /\ all_documents (expanded_retrieval_result update)
           = [Sample.refund_terms; Sample.refund_terms]
        /\ forall doc,
             doc ∈ all_documents (expanded_retrieval_result update) ->
             exists query_result,
               query_result ∈ expanded_queries_results (expanded_retrieval_result update)
               /\ doc ∈ search_results query_result).
Proof.
  split.
  - eexists. split; [vm_compute; reflexivity|]. split; [reflexivity|].
    apply (no_document_fabricated
             10 5 true true Sample.summary_id Sample.rewrite_prompt
             Sample.verifier_prompt Sample.parse_question_id Sample.get_fit_scores
             Sample.preprocessing_rerank Sample.rescoring_reranker Sample.mean
             (string * Z)%type identity_key Sample.expansion_input).
    + intros search_query docs reranked doc _ _.
      apply rescoring_reranker_keeps_identities.
    + vm_compute. reflexivity.
  - eexists. split; [vm_compute; reflexivity|]. split; [reflexivity|].
    intros doc Hdoc.
    eapply (no_document_fabricated
              10 5 true true Sample.summary_id Sample.rewrite_prompt
              Sample.verifier_prompt Sample.parse_question_id Sample.get_fit_scores
              Sample.preprocessing_plain Sample.adding_reranker Sample.mean
              InferenceSection (fun doc => doc) Sample.expansion_input)
      in Hdoc as (query_result & Hqr & Hin).
    + exists query_result. split; [exact Hqr|].
      apply list_elem_of_fmap in Hin as (doc' & -> & Hin). exact Hin.
    + unfold reranking_query, Sample.preprocessing_plain.
      intros search_query docs reranked doc' [= <-] Hconfigured.
      discriminate Hconfigured.
    + vm_compute. reflexivity.
Defined.

(** The graph on a run with failing tasks: the backend fails on the second
    query and the model on the shipping rates. The bundle is returned, with
    an empty QueryResult for the second query and the one document the
    model found relevant; the failures are logged. *)
Example failing_tasks_contribute_nothing :
  let run :=
    expanded_retrieval_graph
      10 5 true false Sample.summary_id Sample.rewrite_prompt
      Sample.verifier_prompt Sample.parse_question_id Sample.get_fit_scores
      Sample.preprocessing_plain Sample.reversing_reranker Sample.mean
      Sample.failing_input in
  exists update,
    result_of run = Returns update
    /\ expanded_queries_results (expanded_retrieval_result update)
       = [ {| query := "refund policy";
              search_results := [Sample.refund_terms; Sample.shipping; Sample.unscored];
              stats := None |};
           {| query := "return policy"; search_results := []; stats := None |} ]
    /\ all_documents (expanded_retrieval_result update) = [Sample.refund_terms]
    /\ List.filter (fun e => match e with LoggerWarning _ => true | _ => false end)
                   (trace_of run)
       = [ LoggerWarning "the index does not answer";
           LoggerWarning "the model does not answer";
           LoggerWarning "No reranking settings found, using unranked documents" ].
Proof.
  eexists. split; [vm_compute; reflexivity|]. split; [reflexivity|].
  split; [reflexivity|]. vm_compute. reflexivity.
Qed.

(** The graph on a run whose reranking stage fails: the bundle is returned
    with an empty document list. *)
Example failing_reranking_is_empty :
  exists update,
    result_of (expanded_retrieval_graph
                 10 5 true false Sample.summary_id Sample.rewrite_prompt
                 Sample.verifier_prompt Sample.parse_question_id Sample.get_fit_scores
                 Sample.failing_preprocessing Sample.reversing_reranker Sample.mean
                 Sample.expansion_input)
    = Returns update
    /\ length (expanded_queries_results (expanded_retrieval_result update)) = 2%nat
    /\ all_documents (expanded_retrieval_result update) = [].
Proof.
  eexists. split; [vm_compute; reflexivity|]. split; reflexivity.
Qed.

(** The graph on a run without chat session: the configuration error aborts
    it. *)
Example missing_session_aborts :
  result_of (expanded_retrieval_graph
               10 5 true false Sample.summary_id Sample.rewrite_prompt
               Sample.verifier_prompt Sample.parse_question_id Sample.get_fit_scores
               Sample.preprocessing_plain Sample.reversing_reranker Sample.mean
               Sample.no_session_input)
  = Raises configuration_error.
Proof. vm_compute. reflexivity. Qed.

(** The graph on a run whose sub-question id is malformed: query expansion
    degenerates to the original question, the retrieval of which fails on
    the same id, and the bundle is returned without documents. *)
Example malformed_id_degenerates :
  exists update,
    result_of (expanded_retrieval_graph
                 10 5 true false Sample.summary_id Sample.rewrite_prompt
                 Sample.verifier_prompt Sample.parse_question_id Sample.get_fit_scores
                 Sample.preprocessing_plain Sample.reversing_reranker Sample.mean
                 Sample.malformed_id_input)
    = Returns update
    /\ expanded_queries_results (expanded_retrieval_result update)
       = [ {| query := "What is the refund policy?"; search_results := [];
              stats := None |} ]
    /\ all_documents (expanded_retrieval_result update) = [].
Proof.
  eexists. split; [vm_compute; reflexivity|]. split; reflexivity.
Qed.

(** C10 on the sample QueryResults: the key of the unscored document, which
    two queries retrieved, changes nothing. *)
Lemma chunk_stats_unscored_key_ignored_witness :
  AgentChunkStats.verified_doc_chunk_ids
    (_calculate_sub_question_retrieval_stats
       Sample.mean [Sample.unscored; Sample.refund_terms; Sample.unscored]
       Sample.query_results)
  = doc_chunk_id <$> [Sample.unscored; Sample.refund_terms; Sample.unscored]
  /\ length (AgentChunkStats.verified_doc_chunk_ids
               (_calculate_sub_question_retrieval_stats
                  Sample.mean [Sample.unscored; Sample.refund_terms; Sample.unscored]
                  Sample.query_results))
     = 3%nat
  /\ _calculate_sub_question_retrieval_stats
       Sample.mean [Sample.unscored; Sample.refund_terms; Sample.unscored]
       Sample.query_results
     = _calculate_sub_question_retrieval_stats
         Sample.mean [Sample.unscored; Sample.refund_terms; Sample.unscored]
         (without_key ("faq", 3) Sample.query_results)
  /\ make_chunk_key "faq" 3
     ∉ AgentChunkStats.dismissed_doc_chunk_ids
         (_calculate_sub_question_retrieval_stats
            Sample.mean [Sample.unscored; Sample.refund_terms; Sample.unscored]
            Sample.query_results).
Proof.
  apply (chunk_stats_unscored_key_ignored
           Sample.mean [Sample.unscored; Sample.refund_terms; Sample.unscored]
           Sample.query_results ("faq", 3)).
  intros doc Hdoc Hkey. cbn in Hdoc.
  repeat (apply elem_of_cons in Hdoc as [->|Hdoc]);
    [discriminate Hkey | discriminate Hkey | reflexivity | discriminate Hkey
    | reflexivity | by apply elem_of_nil in Hdoc].
Defined.

(** Scenario A of the specification: five distinct keys retrieved, two of
    them verified. *)
Example scenario_A_chunk_stats :
  _calculate_sub_question_retrieval_stats
    Sample.mean [Sample.refund_terms; Sample.returns_window] Sample.scenario_A_results
  = {| AgentChunkStats.verified_count := 2;
       AgentChunkStats.verified_avg_scores := 1%float;
       AgentChunkStats.rejected_count := 3;
       AgentChunkStats.rejected_avg_scores := Some 0.375%float;
       AgentChunkStats.verified_doc_chunk_ids := ["policy_0"; "returns_0"];
       AgentChunkStats.dismissed_doc_chunk_ids := ["policy_1"; "shipping_0"; "returns_4"] |}.
Proof. reflexivity. Qed.

(** ** Further properties stated over the parameters *)

Lemma package_sends_with_question (CoreFields : Type)
    (extract_core_fields : ExpandedRetrievalState.t -> CoreFields)
    (state : ExpandedRetrievalState.t) (question : string)
    (documents : list InferenceSection) :
  ExpandedRetrievalState.question state = Some question ->
  package_sends CoreFields extract_core_fields state documents
  = Returns ((fun doc => {| pkg_doc_to_verify := doc;
                            pkg_question := question;
                            pkg_core_fields := extract_core_fields state |})
               <$> documents).
Proof.
  intros Hq. induction documents as [|doc documents IH]; [done|].
  cbn [package_sends]. by rewrite Hq, IH.
Qed.

(** X20. The dispatcher of the nodes package reads the question from the
    state without a fallback: with retrieved documents and no question
    it raises KeyError, where the dispatcher of nodes.py uses the query of
    the original search request; with no retrieved document it sends
    nothing, question or not; with a question it sends one task per
    retrieved document, with the same documents and question, in the
    same order, as the dispatcher of nodes.py. *)
Theorem package_verification_kickoff_question (CoreFields : Type)
    (extract_core_fields : ExpandedRetrievalState.t -> CoreFields)
    (state : ExpandedRetrievalState.t) :
  (ExpandedRetrievalState.retrieved_documents state = [] ->
   package_verification_kickoff CoreFields extract_core_fields state = Returns [])
  /\ (ExpandedRetrievalState.retrieved_documents state <> [] ->
      ExpandedRetrievalState.question state = None ->
      package_verification_kickoff CoreFields extract_core_fields state
      = Raises (KeyError "'question'"))
  /\ (forall question,
        ExpandedRetrievalState.question state = Some question ->
        exists sends,
          package_verification_kickoff CoreFields extract_core_fields state
          = Returns sends
          /\ pkg_doc_to_verify <$> sends
             = ExpandedRetrievalState.retrieved_documents state
          /\ Forall (fun send =>
                       pkg_question send = question
                       /\ pkg_core_fields send = extract_core_fields state) sends
          /\ (fun send => (pkg_doc_to_verify send, pkg_question send)) <$> sends
             = (fun input => (DocVerificationInput.doc_to_verify input,
                              DocVerificationInput.question input))
                 <$> verification_kickoff state).
Proof.
  unfold package_verification_kickoff. split_and!.
  - by intros ->.
  - intros Hdocs Hq.
    destruct (ExpandedRetrievalState.retrieved_documents state); [done|].
    cbn [package_sends]. by rewrite Hq.
  - intros question Hq. eexists. split; [by apply package_sends_with_question|].
    unfold verification_kickoff. rewrite Hq. cbn [default].
    rewrite <- !list_fmap_compose. split_and!.
    + apply list_fmap_id.
    + by apply Forall_fmap, Forall_forall.
    + done.
Qed.

(** X21. A sub-question id that is absent or the empty string is never
    handed to the parser by the retrieval worker: its outcome and its
    events are the same whatever the parser does. *)
Theorem doc_retrieval_falsy_sub_question_id_not_parsed
    (AGENT_MAX_QUERY_RETRIEVAL_RESULTS : Z) (AGENT_RETRIEVAL_STATS : bool)
    (SEARCH_RESPONSE_SUMMARY_ID : string)
    (parse_question_id parse_question_id' : string -> outcome (Z * Z))
    (get_fit_scores : list pyobj -> list pyobj -> option RetrievalFitStats)
    (state : RetrievalInput.t) :
  RetrievalInput.sub_question_id state = None
  \/ RetrievalInput.sub_question_id state = Some EmptyString ->
  doc_retrieval AGENT_MAX_QUERY_RETRIEVAL_RESULTS AGENT_RETRIEVAL_STATS
                SEARCH_RESPONSE_SUMMARY_ID parse_question_id get_fit_scores state
  = doc_retrieval AGENT_MAX_QUERY_RETRIEVAL_RESULTS AGENT_RETRIEVAL_STATS
                  SEARCH_RESPONSE_SUMMARY_ID parse_question_id' get_fit_scores state.
Proof.
  intros Hid. unfold doc_retrieval.
  assert (doc_retrieval_step SEARCH_RESPONSE_SUMMARY_ID parse_question_id
                             (RetrievalInput.sub_question_id state)
          = doc_retrieval_step SEARCH_RESPONSE_SUMMARY_ID parse_question_id'
                               (RetrievalInput.sub_question_id state)) as ->; [|done].
  by destruct Hid as [-> | ->].
Qed.

(** ** The further properties on sample inputs *)

(** X1 on the sample retrieval input. *)
Lemma doc_retrieval_backend_call_once_witness :
  exists rest,
    trace_of (doc_retrieval 10 true Sample.summary_id Sample.parse_question_id
                            Sample.get_fit_scores Sample.retrieval_input)
    = SessionContext :: SearchToolRun "refund policy" true :: rest
    /\ Forall (fun e => is_backend_call e = false) rest.
Proof.
  apply (doc_retrieval_backend_call_once
           10 true Sample.summary_id Sample.parse_question_id Sample.get_fit_scores
           Sample.retrieval_input).
  reflexivity.
Defined.

(** X2 on the search tool with two summaries, sub-question id "1_2". *)
Lemma doc_retrieval_events_witness :
  trace_of (doc_retrieval 10 true Sample.summary_id Sample.parse_question_id
                          Sample.get_fit_scores
                          (Sample.retrieval_input_with Sample.two_summaries_tool))
  = SessionContext :: SearchToolRun "refund policy" true
    :: (tool_response_event (1, 2)
          <$> [Sample.first_summary; Sample.relevance_response; Sample.last_summary;
               Sample.relevance_response]).
Proof.
  exact (doc_retrieval_events
           10 true Sample.summary_id Sample.parse_question_id Sample.get_fit_scores
           (Sample.retrieval_input_with Sample.two_summaries_tool)
           [Sample.first_summary; Sample.relevance_response; Sample.last_summary;
            Sample.relevance_response]
           None eq_refl eq_refl eq_refl eq_refl).
Defined.

(** X3 on the search tool with two summaries, with a cap of two. *)
Lemma doc_retrieval_last_summary_wins_witness :
  exists update,
    result_of (doc_retrieval 2 false Sample.summary_id Sample.parse_question_id
                             Sample.get_fit_scores
                             (Sample.retrieval_input_with Sample.two_summaries_tool))
    = Returns update
    /\ dr_retrieved_documents update
       = slice_to 2 [Sample.refund_terms; Sample.refund_form; Sample.unscored]
    /\ search_results <$> dr_expanded_retrieval_results update
       = [slice_to 2 [Sample.refund_terms; Sample.refund_form; Sample.unscored]].
Proof.
  apply (doc_retrieval_last_summary_wins
           2 false Sample.summary_id Sample.parse_question_id Sample.get_fit_scores
           (Sample.retrieval_input_with Sample.two_summaries_tool)
           [Sample.first_summary; Sample.relevance_response]
           [Sample.relevance_response] Sample.last_summary
           [Sample.refund_terms; Sample.refund_form; Sample.unscored] None);
    try reflexivity.
  constructor; [discriminate|constructor].
Defined.

(** X4 on the search tool without a summary response. *)
Lemma doc_retrieval_without_summary_witness :
  exists fit_stats,
    result_of (doc_retrieval 10 true Sample.summary_id Sample.parse_question_id
                             Sample.get_fit_scores
                             (Sample.retrieval_input_with Sample.no_summary_tool))
    = Returns {| dr_expanded_retrieval_results :=
                   [ {| query := "refund policy";
                        search_results := [];
                        stats := fit_stats |} ];
                 dr_retrieved_documents := [] |}.
Proof.
  apply (doc_retrieval_without_summary
           10 true Sample.summary_id Sample.parse_question_id Sample.get_fit_scores
           (Sample.retrieval_input_with Sample.no_summary_tool)
           [Sample.relevance_response] None);
    try reflexivity.
  constructor; [discriminate|constructor].
Defined.

(** X5 on the sample retrieval input, with a cap of two. *)
Lemma doc_retrieval_update_shape_witness :
  exists update,
    result_of (doc_retrieval 2 true Sample.summary_id Sample.parse_question_id
                             Sample.get_fit_scores Sample.retrieval_input)
    = Returns update
    /\ ((PyStr.blank "refund policy" = true
         /\ dr_expanded_retrieval_results update = []
         /\ dr_retrieved_documents update = [])
        \/ (PyStr.blank "refund policy" = false
            /\ exists query_result,
                 dr_expanded_retrieval_results update = [query_result]
                 /\ query query_result = "refund policy"
                 /\ search_results query_result = dr_retrieved_documents update
                 /\ (0 <= 2 -> Z.of_nat (length (dr_retrieved_documents update)) <= 2))).
Proof.
  eexists. split; [reflexivity|].
  apply (doc_retrieval_update_shape
           2 true Sample.summary_id Sample.parse_question_id Sample.get_fit_scores
           Sample.retrieval_input).
  reflexivity.
Defined.

(** X6 on the input whose sub-question id is "first". *)
Lemma expand_queries_parse_error_first_witness :
  expand_queries Sample.rewrite_prompt Sample.parse_question_id Sample.malformed_id_input
  = ([], Raises (ValueError "not enough values to unpack (expected 2, got 1)")).
Proof.
  apply (expand_queries_parse_error_first
           Sample.rewrite_prompt Sample.parse_question_id Sample.malformed_id_input
           "first" (ValueError "not enough values to unpack (expected 2, got 1)")).
  - reflexivity.
  - reflexivity.
Defined.

(** X7 on the sample expansion input. *)
Lemma expand_queries_no_line_breaks_witness :
  exists update,
    result_of (expand_queries Sample.rewrite_prompt Sample.parse_question_id
                              Sample.expansion_input)
    = Returns update
    /\ Forall (fun q => ~ PyStr.occurs newline q) (qe_expanded_queries update)
    /\ (0 < length (qe_expanded_queries update))%nat.
Proof.
  eexists. split; [reflexivity|].
  apply (expand_queries_no_line_breaks
           Sample.rewrite_prompt Sample.parse_question_id Sample.expansion_input).
  reflexivity.
Defined.

(** X8 on the sample model, whose answer starts with "Yes". *)
Lemma doc_verification_any_case_yes_witness :
  result_of (doc_verification Sample.verifier_prompt Sample.verification_input)
  = Returns {| dv_verified_documents := [Sample.refund_terms] |}.
Proof.
  apply (doc_verification_any_case_yes
           Sample.verifier_prompt Sample.verification_input
           EmptyString "Yes" ", it is relevant.").
  - reflexivity.
  - reflexivity.
Defined.

(** X11 on the sample state with a configured reranker. *)
Lemma doc_reranking_reranker_invocations_witness :
  trace_of (doc_reranking 10 false Sample.get_fit_scores Sample.preprocessing_rerank
                          Sample.reversing_reranker Sample.verified_state)
  = SessionContext :: RetrievalPreprocessing "What is the refund policy?"
    :: (if rerank_configured (Sample.rerank_query "What is the refund policy?")
        then [RerankSections (Sample.rerank_query "What is the refund policy?")
                             [Sample.refund_terms; Sample.refund_form]]
        else [LoggerWarning "No reranking settings found, using unranked documents"])
  /\ (rerank_configured (Sample.rerank_query "What is the refund policy?") = true <->
      exists settings name,
        rerank_settings (Sample.rerank_query "What is the refund policy?") = Some settings
        /\ rerank_model_name settings = Some name
        /\ name <> EmptyString /\ (0 < num_rerank settings)%Z).
Proof.
  apply (doc_reranking_reranker_invocations
           10 false Sample.get_fit_scores Sample.preprocessing_rerank
           Sample.reversing_reranker Sample.verified_state
           (Sample.rerank_query "What is the refund policy?")).
  reflexivity.
Defined.

(** X12 on the reversing reranker. *)
Lemma doc_reranking_keeps_all_when_permuted_witness :
  exists update,
    result_of (doc_reranking 10 false Sample.get_fit_scores Sample.preprocessing_rerank
                             Sample.reversing_reranker Sample.verified_state)
    = Returns update
    /\ rr_reranked_documents update
       = sections_only (PySection <$> [Sample.refund_form; Sample.refund_terms])
    /\ rr_reranked_documents update ≡ₚ [Sample.refund_terms; Sample.refund_form].
Proof.
  apply (doc_reranking_keeps_all_when_permuted
           10 false Sample.get_fit_scores Sample.preprocessing_rerank
           Sample.reversing_reranker Sample.verified_state
           (Sample.rerank_query "What is the refund policy?")
           (PySection <$> [Sample.refund_form; Sample.refund_terms])).
  - reflexivity.
  - reflexivity.
  - cbn. apply perm_swap.
  - cbn. lia.
Defined.

(** X16 on scenario A, the verified documents in another order and with a
    duplicate. *)
Lemma chunk_stats_verified_set_only_witness :
  AgentChunkStats.verified_count
    (_calculate_sub_question_retrieval_stats
       Sample.mean [Sample.refund_terms; Sample.returns_window] Sample.scenario_A_results)
  = AgentChunkStats.verified_count
      (_calculate_sub_question_retrieval_stats
         Sample.mean [Sample.returns_window; Sample.refund_terms; Sample.returns_window]
         Sample.scenario_A_results)
  /\ AgentChunkStats.rejected_count
       (_calculate_sub_question_retrieval_stats
          Sample.mean [Sample.refund_terms; Sample.returns_window]
          Sample.scenario_A_results)
     = AgentChunkStats.rejected_count
         (_calculate_sub_question_retrieval_stats
            Sample.mean [Sample.returns_window; Sample.refund_terms; Sample.returns_window]
            Sample.scenario_A_results)
  /\ AgentChunkStats.verified_avg_scores
       (_calculate_sub_question_retrieval_stats
          Sample.mean [Sample.refund_terms; Sample.returns_window]
          Sample.scenario_A_results)
     = AgentChunkStats.verified_avg_scores
         (_calculate_sub_question_retrieval_stats
            Sample.mean [Sample.returns_window; Sample.refund_terms; Sample.returns_window]
            Sample.scenario_A_results)
  /\ AgentChunkStats.rejected_avg_scores
       (_calculate_sub_question_retrieval_stats
          Sample.mean [Sample.refund_terms; Sample.returns_window]
          Sample.scenario_A_results)
     = AgentChunkStats.rejected_avg_scores
         (_calculate_sub_question_retrieval_stats
            Sample.mean [Sample.returns_window; Sample.refund_terms; Sample.returns_window]
            Sample.scenario_A_results)
  /\ AgentChunkStats.dismissed_doc_chunk_ids
       (_calculate_sub_question_retrieval_stats
          Sample.mean [Sample.refund_terms; Sample.returns_window]
          Sample.scenario_A_results)
     = AgentChunkStats.dismissed_doc_chunk_ids
         (_calculate_sub_question_retrieval_stats
            Sample.mean [Sample.returns_window; Sample.refund_terms; Sample.returns_window]
            Sample.scenario_A_results).
Proof.
  apply (chunk_stats_verified_set_only
           Sample.mean [Sample.refund_terms; Sample.returns_window]
           [Sample.returns_window; Sample.refund_terms; Sample.returns_window]
           Sample.scenario_A_results).
  intros k. rewrite !fmap_cons, !fmap_nil, !elem_of_cons, !elem_of_nil. tauto.
Defined.

(** X17 on scenario A: the key retrieved by both queries has two samples. *)
Lemma chunk_scores_samples_witness :
  valid_chunk_scores [Some 0.5%float; Some 0.5%float]
  = omap (fun doc => score (center_chunk doc))
         (filter (fun doc => doc_chunk_id doc = "policy_0")
                 (retrieved_of Sample.scenario_A_results))
  /\ valid_chunk_scores [Some 0.5%float; Some 0.5%float] <> [].
Proof.
  apply (chunk_scores_samples Sample.scenario_A_results "policy_0"
                              [Some 0.5%float; Some 0.5%float]).
  vm_compute. apply list_elem_of_here.
Defined.

(** X18 on the QueryResult whose only document has no score. *)
Lemma chunk_stats_no_scores_witness :
  _calculate_sub_question_retrieval_stats
    Sample.mean [Sample.unscored] [Sample.unscored_result]
  = {| AgentChunkStats.verified_count := 0;
       AgentChunkStats.verified_avg_scores := 0%float;
       AgentChunkStats.rejected_count := 0;
       AgentChunkStats.rejected_avg_scores := None;
       AgentChunkStats.verified_doc_chunk_ids := doc_chunk_id <$> [Sample.unscored];
       AgentChunkStats.dismissed_doc_chunk_ids := [] |}.
Proof.
  apply (chunk_stats_no_scores Sample.mean [Sample.unscored] [Sample.unscored_result]).
  intros doc Hdoc. cbn in Hdoc.
  apply elem_of_cons in Hdoc as [->|Hdoc]; [reflexivity|].
  by apply elem_of_nil in Hdoc.
Defined.

(** X21 on the input whose sub-question id is the empty string. *)
Lemma doc_retrieval_falsy_sub_question_id_not_parsed_witness :
  doc_retrieval 10 true Sample.summary_id Sample.parse_question_id
                Sample.get_fit_scores Sample.empty_id_retrieval_input
  = doc_retrieval 10 true Sample.summary_id Sample.rejecting_parser
                  Sample.get_fit_scores Sample.empty_id_retrieval_input.
Proof.
  apply (doc_retrieval_falsy_sub_question_id_not_parsed
           10 true Sample.summary_id Sample.parse_question_id Sample.rejecting_parser
           Sample.get_fit_scores Sample.empty_id_retrieval_input).
  right. reflexivity.
Defined.
